(** * DWG dashboard: the geometry analysis and aggregation engine

    A shallow embedding of [backend/app/main.py]: [get_color_name],
    [extract_layers], [calculate_bounding_box], [extract_measurements] and
    [extract_preview_geometry], followed by the properties of these
    functions.

    Modelling conventions.
    - Python [float] arithmetic is idealised to the real numbers: [+], [-],
      [*], [/], [abs], [math.sqrt], [min], [max] are the operations of [R];
      [round(x, 4)] is rounding to the nearest multiple of 10^-4, ties to
      the even multiple.  Python's [int] is [Z].  Where the order of the
      additions matters, the polyline loop is also given on IEEE binary64
      values ([Doubles.poly_scan]), as Python runs it.
    - The three [dict]s of [extract_layers] are [gmap string _]; the [dict]s
      handed to the caller ([dim_data], [geom_data["data"]]) are association
      lists in insertion order.
    - An attribute read that the source performs outside every [try] and
      without [hasattr] ([dxftype()], [dxf.layer], the [start]/[end] of a
      LINE, [get_points()]/[closed] of a LWPOLYLINE) always yields a value.
      A read the source guards, by [hasattr] or by an enclosing
      [try]/[except], is an [option]: [None] stands for the missing
      attribute, the raised exception.
    - [ezdxf.bbox.extents] is a library function; it is a parameter of the
      functions that call it. *)

From Stdlib Require Import Reals Lra ZArith List Ascii String.
From Stdlib Require Import DecimalString DecimalPos DecimalZ.
From Stdlib Require PrimFloat.
From stdpp Require Import base option list strings gmap.

Open Scope string_scope.
Open Scope list_scope.
Open Scope Z_scope.
Open Scope R_scope.

(** ** The document object model consumed by the engine *)

(** A point of the drawing ([Vec3]): indexable by 0, 1, 2. *)
Record Vec3 : Type := mkVec3 { vx : R; vy : R; vz : R }.

(** A vertex yielded by [get_points()]: the tuple
    [(x, y, start_width, end_width, bulge)]; the engine reads items 0, 1. *)
Record lwpoint : Type := mkPoint {
  px : R; py : R; start_width : R; end_width : R; bulge : R }.

(** The kind-specific attributes of an entity.  [OTHER] stands for every
    kind the engine has no branch for: its [tag] is none of the eight names
    [dxftype] gives to the other constructors, and it may or may not have a
    [get_points] method. *)
Inductive shape : Type :=
  | LINE (start end_ : Vec3)
  | LWPOLYLINE (points : list lwpoint) (closed : bool)
  | HATCH (total_area : option R)
  | DIMENSION (get_text : option string) (get_actual_measurement : option R)
              (dimstyle : option string) (defpoint text_midpoint : option Vec3)
  | CIRCLE (center : option Vec3) (radius : option R)
  | ARC (center : option Vec3) (radius start_angle end_angle : option R)
  | TEXT (insert : option Vec3) (text : option string) (height rotation : option R)
  | MTEXT (insert : option Vec3) (text : option string)
          (char_height rotation : option R)
  | OTHER (tag : string) (get_points : option (list lwpoint)).

Record entity : Type := mkEntity {
  layer : string;            (* entity.dxf.layer *)
  color : option Z;          (* entity.dxf.color, when hasattr says so *)
  geom : shape }.

Definition dxftype (e : entity) : string :=
  match geom e with
  | LINE _ _ => "LINE"
  | LWPOLYLINE _ _ => "LWPOLYLINE"
  | HATCH _ => "HATCH"
  | DIMENSION _ _ _ _ _ => "DIMENSION"
  | CIRCLE _ _ => "CIRCLE"
  | ARC _ _ _ _ => "ARC"
  | TEXT _ _ _ _ => "TEXT"
  | MTEXT _ _ _ _ => "MTEXT"
  | OTHER tag _ => tag
  end.

(** An entry of the layer table, [doc.layers]. *)
Record layer_entry : Type := mkLayer {
  name : string;             (* layer.dxf.name *)
  lcolor : Z;                (* layer.dxf.color *)
  is_off : bool }.           (* layer.is_off() *)

Record document : Type := mkDoc {
  modelspace : list entity;
  layers : list layer_entry }.

(** ** The models returned to the caller *)

Record LayerInfo : Type := mkLayerInfo {
  li_name : string;
  li_color : Z;
  color_name : string;
  visible : bool;
  entity_count : Z;
  line_length : R;
  closed_area : R }.

Record BoundingBox : Type := mkBoundingBox {
  min_x : R; min_y : R; min_z : R;
  max_x : R; max_y : R; max_z : R;
  width : R; height : R; depth : R }.

(** Values stored in the dictionaries handed to the caller. *)
#[local] Set Warnings "-register-all".
Inductive value : Type :=
  | VNum (r : R)
  | VStr (s : string)
  | VBool (b : bool)
  | VVec (v : Vec3)
  | VList (l : list value).

#[local] Set Warnings "+register-all".

Abbreviation dict := (list (string * value)).

Record Measurements : Type := mkMeasurements {
  total_entities : Z;
  bounding_box : BoundingBox;
  total_line_length : R;
  total_closed_area : R;
  dimensions : list dict }.

Record GeometryEntity : Type := mkGeometryEntity {
  ge_type : string;
  ge_layer : string;
  ge_color : Z;
  ge_data : dict }.

(** ** Numeric helpers *)

(** Nearest integer, ties to even. *)
Definition round_half_even (x : R) : Z :=
  let f := Int_part x in
  let r := x - IZR f in
  if Rlt_dec r (1 / 2) then f
  else if Rlt_dec (1 / 2) r then (f + 1)%Z
  else if Z.even f then f else (f + 1)%Z.

(** [round(x, 4)] *)
Definition round4 (x : R) : R := IZR (round_half_even (x * 10 ^ 4)) / 10 ^ 4.

(** [sum(...)] of a generator of floats: starts from 0, adds left to right. *)
Definition py_sum (l : list R) : R := fold_left Rplus l 0.

(** [min(...)] and [max(...)]; the engine calls them on non-empty sequences
    only (inside [if all_points:]). *)
Definition py_min (l : list R) : R :=
  match l with
  | [] => 0
  | x :: l' => fold_left Rmin l' x
  end.

Definition py_max (l : list R) : R :=
  match l with
  | [] => 0
  | x :: l' => fold_left Rmax l' x
  end.

(** ** [get_color_name] *)

Definition color_names : list (Z * string) :=
  [ (0%Z, "ByBlock"); (1%Z, "Red"); (2%Z, "Yellow"); (3%Z, "Green");
    (4%Z, "Cyan"); (5%Z, "Blue"); (6%Z, "Magenta"); (7%Z, "White/Black");
    (8%Z, "Dark Gray"); (9%Z, "Light Gray"); (10%Z, "Light Red");
    (11%Z, "Light Yellow"); (12%Z, "Light Green"); (13%Z, "Light Cyan");
    (14%Z, "Light Blue"); (15%Z, "Light Magenta") ].

Fixpoint assoc_get {A} (k : Z) (l : list (Z * A)) : option A :=
  match l with
  | [] => None
  | (k', v) :: l' => if Z.eqb k k' then Some v else assoc_get k l'
  end.

Definition get_color_name (color_index : Z) : string :=
  match assoc_get color_index color_names with
  | Some s => s
  | None => ("Color " ++ NilZero.string_of_int (Z.to_int color_index))%string
  end.

(** ** [extract_layers] *)

(** The three dictionaries of the first loop. *)
Record layer_acc : Type := mkAcc {
  layer_entity_counts : gmap string Z;
  layer_line_lengths : gmap string R;
  layer_closed_areas : gmap string R }.

Definition empty_acc : layer_acc := mkAcc ∅ ∅ ∅.

(** [d.get(k, dflt)] *)
Definition dict_get {A} (d : gmap string A) (k : string) (dflt : A) : A :=
  default dflt (d !! k).

(** [d[k] += 1] and [d[k] += v].  At every use the key is present (see
    [ensure_bucket_key_present] below), so the read of [d[k]] never raises. *)
Definition dict_incr (d : gmap string Z) (k : string) : gmap string Z :=
  <[k := (dict_get d k 0%Z + 1)%Z]> d.

Definition dict_add (d : gmap string R) (k : string) (v : R) : gmap string R :=
  <[k := dict_get d k 0 + v]> d.

Definition origin : lwpoint := mkPoint 0 0 0 0 0.

(** One iteration of [for i in range(len(points))]: the pair is
    [(length, area)]. *)
Definition poly_edge (points : list lwpoint) (la : R * R) (i : nat) : R * R :=
  let p1 := nth i points origin in
  let p2 := nth ((i + 1) mod length points) points origin in
  let '(x1, y1) := (px p1, py p1) in
  let '(x2, y2) := (px p2, py p2) in
  (fst la + sqrt ((x2 - x1) ^ 2 + (y2 - y1) ^ 2),
   snd la + (x1 * y2 - x2 * y1)).

Definition poly_scan (points : list lwpoint) : R * R :=
  fold_left (poly_edge points) (seq 0 (length points)) (0, 0).

(** [if layer_name not in layer_entity_counts: ...] *)
Definition ensure_bucket (acc : layer_acc) (layer_name : string) : layer_acc :=
  match layer_entity_counts acc !! layer_name with
  | None =>
      mkAcc (<[layer_name := 0%Z]> (layer_entity_counts acc))
            (<[layer_name := 0]> (layer_line_lengths acc))
            (<[layer_name := 0]> (layer_closed_areas acc))
  | Some _ => acc
  end.

(** The body of [for entity in msp]. *)
Definition layer_step (acc : layer_acc) (e : entity) : layer_acc :=
  let layer_name := layer e in
  let acc := ensure_bucket acc layer_name in
  let counts := dict_incr (layer_entity_counts acc) layer_name in
  let lengths := layer_line_lengths acc in
  let areas := layer_closed_areas acc in
  match geom e with
  | LINE start end_ =>
      let length := sqrt ((vx end_ - vx start) ^ 2 + (vy end_ - vy start) ^ 2) in
      mkAcc counts (dict_add lengths layer_name length) areas
  | LWPOLYLINE points closed =>
      if (1 <? length points)%nat then
        let '(length, area) := poly_scan points in
        mkAcc counts (dict_add lengths layer_name length)
              (if closed then dict_add areas layer_name (Rabs area / 2)
               else areas)
      else mkAcc counts lengths areas
  | HATCH (Some area) => mkAcc counts lengths (dict_add areas layer_name area)
  | _ => mkAcc counts lengths areas
  end.

(** The body of [for layer in doc.layers]. *)
Definition layer_row (acc : layer_acc) (l : layer_entry) : LayerInfo :=
  mkLayerInfo (name l) (lcolor l) (get_color_name (lcolor l))
              (negb (is_off l))
              (dict_get (layer_entity_counts acc) (name l) 0%Z)
              (round4 (dict_get (layer_line_lengths acc) (name l) 0))
              (round4 (dict_get (layer_closed_areas acc) (name l) 0)).

Definition scan_entities (msp : list entity) : layer_acc :=
  fold_left layer_step msp empty_acc.

Definition extract_layers (doc : document) : list LayerInfo :=
  map (layer_row (scan_entities (modelspace doc))) (layers doc).

(** ** [calculate_bounding_box] *)

(** What [bbox.extents(doc.modelspace())] does: it raises, it returns an
    empty (falsy) box, or it returns a box with [extmin] and [extmax]. *)
Inductive extents_result : Type :=
  | ExtRaise
  | ExtEmpty
  | ExtBox (extmin extmax : Vec3).

Abbreviation point3 := (R * R * R)%type.

Definition p0 (p : point3) : R := fst (fst p).
Definition p1 (p : point3) : R := snd (fst p).
Definition p2 (p : point3) : R := snd p.

(** The body of the fallback loop: the points one entity contributes. *)
Definition fallback_points (e : entity) : list point3 :=
  match geom e with
  | LINE start end_ => [ (vx start, vy start, 0); (vx end_, vy end_, 0) ]
  | LWPOLYLINE points _ => map (fun point => (px point, py point, 0)) points
  | OTHER _ (Some points) => map (fun point => (px point, py point, 0)) points
  | _ => []
  end.

Definition fallback_step (all_points : list point3) (e : entity) : list point3 :=
  all_points ++ fallback_points e.

Definition zero_box : BoundingBox := mkBoundingBox 0 0 0 0 0 0 0 0 0.

Definition box_of (lo hi : Vec3) : BoundingBox :=
  mkBoundingBox (vx lo) (vy lo) (vz lo) (vx hi) (vy hi) (vz hi)
                (vx hi - vx lo) (vy hi - vy lo) (vz hi - vz lo).

Definition fallback_box (msp : list entity) : BoundingBox :=
  let all_points := fold_left fallback_step msp [] in
  match all_points with
  | _ :: _ =>
      box_of (mkVec3 (py_min (map p0 all_points)) (py_min (map p1 all_points))
                     (py_min (map p2 all_points)))
             (mkVec3 (py_max (map p0 all_points)) (py_max (map p1 all_points))
                     (py_max (map p2 all_points)))
  | [] => zero_box
  end.

Section Engine.

(** [ezdxf.bbox.extents], applied to the modelspace. *)
Variable bbox_extents : list entity -> extents_result.

Definition calculate_bounding_box (doc : document) : BoundingBox :=
  match bbox_extents (modelspace doc) with
  | ExtBox extmin extmax => box_of extmin extmax
  | ExtEmpty | ExtRaise => fallback_box (modelspace doc)
  end.

(** ** [extract_measurements] *)

(** The [try] block of the dimension loop: [None] when a read raises. *)
Definition dim_data (e : entity) : option dict :=
  match geom e with
  | DIMENSION get_text get_actual_measurement dimstyle defpoint text_midpoint =>
      text ← get_text;
      actual_measurement ← get_actual_measurement;
      style ← dimstyle;
      let d := [ ("type", VStr (dxftype e)); ("layer", VStr (layer e));
                 ("text", VStr text);
                 ("actual_measurement", VNum actual_measurement);
                 ("dimstyle", VStr style) ] in
      let d := match defpoint with
               | Some p => d ++ [ ("defpoint", VVec p) ]
               | None => d
               end in
      let d := match text_midpoint with
               | Some p => d ++ [ ("text_midpoint", VVec p) ]
               | None => d
               end in
      Some d
  | _ => None
  end.

Definition is_dimension (e : entity) : bool :=
  match geom e with
  | DIMENSION _ _ _ _ _ => true
  | _ => false
  end.

Definition dimension_step (dimensions : list dict) (e : entity) : list dict :=
  if is_dimension e then
    match dim_data e with
    | Some d => dimensions ++ [ d ]
    | None => dimensions            (* except: print(...) *)
    end
  else dimensions.

(** [dimensions = []; for entity in msp: ...] *)
Definition scan_dimensions (msp : list entity) : list dict :=
  fold_left dimension_step msp [].

Definition extract_measurements (doc : document) : Measurements :=
  let msp := modelspace doc in
  let total_entities := Z.of_nat (length msp) in
  let bounding_box := calculate_bounding_box doc in
  let layers := extract_layers doc in
  let total_line_length := py_sum (map line_length layers) in
  let total_closed_area := py_sum (map closed_area layers) in
  let dimensions := scan_dimensions msp in
  mkMeasurements total_entities bounding_box
                 (round4 total_line_length) (round4 total_closed_area)
                 dimensions.

(** ** [extract_preview_geometry] *)

(** [[v[0], v[1]]] *)
Definition xy (v : Vec3) : value := VList [ VNum (vx v); VNum (vy v) ].

(** The dictionary built inside the [try] block, by entity kind:
    [None] when no branch applies, [Some None] when a read raises. *)
Definition preview_data (g : shape) : option (option dict) :=
  match g with
  | LINE start end_ =>
      Some (Some [ ("start", xy start); ("end", xy end_) ])
  | LWPOLYLINE points closed =>
      Some (Some [ ("points",
                    VList (map (fun p => VList [ VNum (px p); VNum (py p) ]) points));
                   ("closed", VBool closed) ])
  | CIRCLE center radius =>
      Some (c ← center; r ← radius;
            Some [ ("center", xy c); ("radius", VNum r) ])
  | ARC center radius start_angle end_angle =>
      Some (c ← center; r ← radius; a ← start_angle; b ← end_angle;
            Some [ ("center", xy c); ("radius", VNum r);
                   ("start_angle", VNum a); ("end_angle", VNum b) ])
  | TEXT insert text height rotation =>
      Some (p ← insert; t ← text; h ← height;
            Some [ ("position", xy p); ("text", VStr t); ("height", VNum h);
                   ("rotation", VNum (default 0 rotation)) ])
  | MTEXT insert text char_height rotation =>
      Some (p ← insert; t ← text; h ← char_height;
            Some [ ("position", xy p); ("text", VStr t); ("height", VNum h);
                   ("rotation", VNum (default 0 rotation)) ])
  | HATCH _ | DIMENSION _ _ _ _ _ | OTHER _ _ => None
  end.

(** The body of [for entity in msp].  [GeometryEntity.model_validate] gets a
    string, a string, an integer and a dictionary, and accepts them. *)
Definition preview_step (entities : list GeometryEntity) (e : entity)
  : list GeometryEntity :=
  let entity_type := dxftype e in
  let layer := layer e in
  let color := default 7%Z (color e) in
  match preview_data (geom e) with
  | Some (Some data) =>
      entities ++ [ mkGeometryEntity entity_type layer color data ]
  | Some None => entities           (* except: print(...); continue *)
  | None => entities
  end.

(** [entities = []; for entity in msp: ...] *)
Definition scan_preview (msp : list entity) : list GeometryEntity :=
  fold_left preview_step msp [].

Definition extract_preview_geometry (doc : document)
  : BoundingBox * list GeometryEntity :=
  let msp := modelspace doc in
  let bounding_box := calculate_bounding_box doc in
  (bounding_box, scan_preview msp).

End Engine.

(** ** Notions used to state the properties *)

(** The sum of a list of reals. *)
Fixpoint Rsum (l : list R) : R :=
  match l with
  | [] => 0
  | x :: l' => x + Rsum l'
  end.

(** Euclidean distance of two vertices in the plane, and the shoelace term
    [x_i * y_{i+1} - x_{i+1} * y_i] of an edge. *)
Definition dist (a b : lwpoint) : R :=
  sqrt ((px b - px a) ^ 2 + (py b - py a) ^ 2).

Definition cross (a b : lwpoint) : R := px a * py b - px b * py a.

(** The sum of [f v_i v_{(i+1) mod n}] over all edges [i = 0 .. n-1]. *)
Definition edge_sum (f : lwpoint -> lwpoint -> R) (pts : list lwpoint) : R :=
  Rsum (map (fun i => f (nth i pts origin)
                        (nth ((i + 1) mod length pts) pts origin))
            (seq 0 (length pts))).

(** The same sum by recursion on the vertex list: the edges between
    consecutive vertices, then the edge from the last vertex to the first. *)
Fixpoint path_sum (f : lwpoint -> lwpoint -> R) (pts : list lwpoint) : R :=
  match pts with
  | a :: (b :: _) as rest => f a b + path_sum f rest
  | _ => 0
  end.

Definition ring_sum (f : lwpoint -> lwpoint -> R) (pts : list lwpoint) : R :=
  match pts with
  | [] => 0
  | v0 :: _ => path_sum f pts + f (List.last pts v0) v0
  end.

Definition shoelace_area (pts : list lwpoint) : R := Rabs (edge_sum cross pts) / 2.

(** The running totals of one layer name in the three dictionaries. *)
Definition count_of (acc : layer_acc) (n : string) : Z :=
  dict_get (layer_entity_counts acc) n 0%Z.

Definition length_of (acc : layer_acc) (n : string) : R :=
  dict_get (layer_line_lengths acc) n 0.

Definition area_of (acc : layer_acc) (n : string) : R :=
  dict_get (layer_closed_areas acc) n 0.

(** What one entity contributes to the length and area of its layer. *)
Definition length_contrib (e : entity) : R :=
  match geom e with
  | LINE start end_ =>
      sqrt ((vx end_ - vx start) ^ 2 + (vy end_ - vy start) ^ 2)
  | LWPOLYLINE points _ => edge_sum dist points
  | _ => 0
  end.

Definition area_contrib (e : entity) : R :=
  match geom e with
  | LWPOLYLINE points true => shoelace_area points
  | HATCH (Some area) => area
  | _ => 0
  end.

(** The entities of a modelspace that sit on a given layer. *)
Definition on_layer (n : string) (e : entity) : bool := String.eqb (layer e) n.

Definition entities_on (n : string) (msp : list entity) : list entity :=
  List.filter (on_layer n) msp.



(** The table of preview payloads, by kind: the fields of a LINE, a
    LWPOLYLINE, a CIRCLE, an ARC, a TEXT or a MTEXT that has them, with
    planar coordinates; no payload for an entity of another kind or with a
    required field missing. *)
Definition table_payload (g : shape) : option dict :=
  match g with
  | LINE s t =>
      Some [ ("start", VList [ VNum (vx s); VNum (vy s) ]);
             ("end", VList [ VNum (vx t); VNum (vy t) ]) ]
  | LWPOLYLINE pts cl =>
      Some [ ("points",
              VList (map (fun v => VList [ VNum (px v); VNum (py v) ]) pts));
             ("closed", VBool cl) ]
  | CIRCLE (Some c) (Some r) =>
      Some [ ("center", VList [ VNum (vx c); VNum (vy c) ]);
             ("radius", VNum r) ]
  | ARC (Some c) (Some r) (Some a) (Some b) =>
      Some [ ("center", VList [ VNum (vx c); VNum (vy c) ]);
             ("radius", VNum r); ("start_angle", VNum a);
             ("end_angle", VNum b) ]
  | TEXT (Some q) (Some t) (Some h) rot =>
      Some [ ("position", VList [ VNum (vx q); VNum (vy q) ]);
             ("text", VStr t); ("height", VNum h);
             ("rotation", VNum match rot with Some x => x | None => 0 end) ]
  | MTEXT (Some q) (Some t) (Some h) rot =>
      Some [ ("position", VList [ VNum (vx q); VNum (vy q) ]);
             ("text", VStr t); ("height", VNum h);
             ("rotation", VNum match rot with Some x => x | None => 0 end) ]
  | _ => None
  end.

(** The preview records the table gives for one entity: one record with the
    kind, the layer, the color (7 when the entity has none) and the payload
    of the table, or none. *)
Definition table_records (e : entity) : list GeometryEntity :=
  match table_payload (geom e) with
  | Some data =>
      [ mkGeometryEntity (dxftype e) (layer e)
          match color e with Some c => c | None => 7%Z end data ]
  | None => []
  end.

(** What one entity adds to the dimension records and to the preview. *)
Definition dimension_of (e : entity) : list dict := dimension_step [] e.

Definition projection_of (e : entity) : list GeometryEntity := preview_step [] e.



(** The payload fields of a preview entity, by kind. *)
Definition payload_fields (kind : string) : list string :=
  if String.eqb kind "LINE" then [ "start"; "end" ]
  else if String.eqb kind "LWPOLYLINE" then [ "points"; "closed" ]
  else if String.eqb kind "CIRCLE" then [ "center"; "radius" ]
  else if String.eqb kind "ARC" then
    [ "center"; "radius"; "start_angle"; "end_angle" ]
  else if String.eqb kind "TEXT" then
    [ "position"; "text"; "height"; "rotation" ]
  else if String.eqb kind "MTEXT" then
    [ "position"; "text"; "height"; "rotation" ]
  else [].

Definition preview_kinds : list string :=
  [ "LINE"; "LWPOLYLINE"; "CIRCLE"; "ARC"; "TEXT"; "MTEXT" ].

(** A coordinate list has exactly two numbers. *)
Definition is_xy (v : value) : bool :=
  match v with
  | VList [ VNum _; VNum _ ] => true
  | _ => false
  end.

(** Every point stored in a payload value is an [[x, y]] list. *)
Definition planar (kv : string * value) : bool :=
  match kv with
  | (k, VList l) =>
      if String.eqb k "points" then forallb is_xy l else is_xy (VList l)
  | (_, VVec _) => false
  | _ => true
  end.

(** The three dictionaries of the scan have the same keys. *)
Definition same_keys (acc : layer_acc) : Prop :=
  dom (layer_line_lengths acc) = dom (layer_entity_counts acc) /\
  dom (layer_closed_areas acc) = dom (layer_entity_counts acc).

(** ** Sample documents *)

Definition at_ (x y : R) : lwpoint := mkPoint x y 0 0 0.

Definition rectangle : list lwpoint := [ at_ 0 0; at_ 4 0; at_ 4 3; at_ 0 3 ].

Definition line_A : entity :=
  mkEntity "A" None (LINE (mkVec3 0 0 0) (mkVec3 3 4 0)).

Definition doc_line : document := mkDoc [ line_A ] [ mkLayer "A" 7 false ].

(** An entity on a layer that the layer table does not list. *)
Definition stray : entity :=
  mkEntity "GHOST" (Some 1%Z) (LINE (mkVec3 0 0 0) (mkVec3 1 0 0)).

Definition doc_stray : document := mkDoc [ stray ] [ mkLayer "0" 7 false ].

(** A document with a dimension that reads well, one without its style
    name, a circle without radius, and a line. *)
Definition dim_ok : entity :=
  mkEntity "DIMS" None
    (DIMENSION (Some "5.00") (Some 5) (Some "STANDARD") (Some (mkVec3 0 0 0)) None).

Definition dim_bad : entity :=
  mkEntity "DIMS" None (DIMENSION (Some "?") (Some 1) None None None).

Definition circle_bad : entity :=
  mkEntity "A" (Some 3%Z) (CIRCLE (Some (mkVec3 1 1 0)) None).

Definition doc_mixed : document :=
  mkDoc [ dim_ok; dim_bad; circle_bad; line_A ]
        [ mkLayer "A" 7 false; mkLayer "DIMS" 2 false ].



(** An extents query that always raises: the fallback scan decides. *)
Definition no_extents (msp : list entity) : extents_result := ExtRaise.

(** ** The upload store and the endpoints

    The module keeps [file_storage], a dictionary from file ids to
    [FileInfo], and writes the uploads below [UPLOAD_DIR].  The state of the
    server is that dictionary together with the files on disk, a map from
    paths to contents.  An endpoint returns a value or raises; the
    endpoints that change the state return the new state as well.
    [uuid.uuid4()], [datetime.now()] and the outcome of writing the upload
    are inputs of [upload_file]. *)

(** *** Strings: [str.lower], [str.upper], [os.path.splitext], [os.path.join] *)

Definition lower_ascii (a : ascii) : ascii :=
  let n := nat_of_ascii a in
  if ((65 <=? n) && (n <=? 90))%nat then ascii_of_nat (n + 32) else a.

Definition upper_ascii (a : ascii) : ascii :=
  let n := nat_of_ascii a in
  if ((97 <=? n) && (n <=? 122))%nat then ascii_of_nat (n - 32) else a.

Fixpoint str_map (f : ascii -> ascii) (s : string) : string :=
  match s with
  | EmptyString => EmptyString
  | String a s' => String (f a) (str_map f s')
  end.

(** [s.lower()] and [s.upper()]; bytes outside the ASCII letters are kept. *)
Definition lower (s : string) : string := str_map lower_ascii s.
Definition upper (s : string) : string := str_map upper_ascii s.

(** [s[:n]] and [s[n:]] *)
Fixpoint str_take (n : nat) (s : string) : string :=
  match n, s with
  | S n', String a s' => String a (str_take n' s')
  | _, _ => EmptyString
  end.

Fixpoint str_drop (n : nat) (s : string) : string :=
  match n, s with
  | S n', String _ s' => str_drop n' s'
  | _, _ => s
  end.

(** [s.rfind(c)]: the index of the last [c] in [s], or -1. *)
Fixpoint rfind_from (s : string) (c : ascii) (i found : Z) : Z :=
  match s with
  | EmptyString => found
  | String a s' => rfind_from s' c (i + 1) (if Ascii.eqb a c then i else found)
  end.

Definition rfind (s : string) (c : ascii) : Z := rfind_from s c 0 (-1).

(** The loop of [splitext] that skips the leading dots of the file name:
    [fuel] is [dotIndex - filenameIndex], the number of turns left. *)
Fixpoint skip_leading_dots (p : string) (dotIndex filenameIndex fuel : nat)
  : string * string :=
  match fuel with
  | O => (p, "")
  | S fuel' =>
      match String.get filenameIndex p with
      | Some a =>
          if Ascii.eqb a "." then
            skip_leading_dots p dotIndex (S filenameIndex) fuel'
          else (str_take dotIndex p, str_drop dotIndex p)
      | None => (str_take dotIndex p, str_drop dotIndex p)
      end
  end.

(** [os.path.splitext(p)] *)
Definition splitext (p : string) : string * string :=
  let sepIndex := rfind p "/" in
  let dotIndex := rfind p "." in
  if (sepIndex <? dotIndex)%Z then
    let filenameIndex := (sepIndex + 1)%Z in
    skip_leading_dots p (Z.to_nat dotIndex) (Z.to_nat filenameIndex)
                      (Z.to_nat (dotIndex - filenameIndex))
  else (p, "").

Definition starts_with (c : ascii) (s : string) : bool :=
  match s with
  | String a _ => Ascii.eqb a c
  | EmptyString => false
  end.

Fixpoint ends_with (c : ascii) (s : string) : bool :=
  match s with
  | EmptyString => false
  | String a EmptyString => Ascii.eqb a c
  | String _ s' => ends_with c s'
  end.

(** [os.path.join(a, b)] *)
Definition path_join (a b : string) : string :=
  if starts_with "/" b then b
  else if (String.eqb a "" || ends_with "/" a)%bool then (a ++ b)%string
  else (a ++ "/" ++ b)%string.

(** *** State, models and exceptions *)

Definition UPLOAD_DIR : string := "/tmp/uploads".

Record FileInfo : Type := mkFileInfo {
  fi_id : string;
  filename : string;
  file_size : Z;
  upload_time : Z;
  file_type : string }.

Record server : Type := mkServer {
  file_storage : gmap string FileInfo;
  disk : gmap string string }.

Record UploadResponse : Type := mkUploadResponse {
  success : bool;
  ur_file_id : string;
  ur_filename : string;
  message : string }.

Record LayerResponse : Type := mkLayerResponse {
  lr_file_id : string;
  lr_filename : string;
  lr_layers : list LayerInfo }.

Record MeasurementResponse : Type := mkMeasurementResponse {
  mr_file_id : string;
  mr_filename : string;
  measurements : Measurements }.

Record PreviewResponse : Type := mkPreviewResponse {
  pr_file_id : string;
  pr_filename : string;
  pr_bounding_box : BoundingBox;
  pr_entities : list GeometryEntity }.

Inductive exn : Type :=
  | HTTPException (status_code : Z) (detail : string)
  | Exception (msg : string).

Inductive outcome (A : Type) : Type :=
  | Returns (a : A)
  | Raises (e : exn).

Arguments Returns {A} a.
Arguments Raises {A} e.

Definition nl : string := String (ascii_of_nat 10) "".

Definition dwg_advice : string :=
  ("DWG files require conversion to DXF. Please convert your file using:" ++ nl ++
   "1. AutoCAD: SAVEAS → DXF format" ++ nl ++
   "2. FreeCAD: File → Export → DXF (free)" ++ nl ++
   "3. Online: anyconv.com, zamzar.com" ++ nl ++
   "4. Or use the sample.dxf file from our GitHub repo")%string.

(** [os.path.join(UPLOAD_DIR, f"{file_id}.{file_info.file_type.lower()}")] *)
Definition stored_path (file_id : string) (file_info : FileInfo) : string :=
  path_join UPLOAD_DIR (file_id ++ "." ++ lower (file_type file_info))%string.

(** [os.path.exists(path)] *)
Definition path_exists (st : server) (path : string) : bool :=
  match disk st !! path with
  | Some _ => true
  | None => false
  end.

Section Endpoints.

(** [ezdxf.readfile] on the contents of a file: a document, or [None] when
    it raises.  [str(e)] of an exception.  [ezdxf.bbox.extents]. *)
Variable ezdxf_parse : string -> option document.
Variable exc_str : exn -> string.
Variable bbox_extents : list entity -> extents_result.

(** The [try] block of [parse_dxf_file]. *)
Definition parse_dxf_try (st : server) (filepath : string) : outcome document :=
  let file_ext := lower (snd (splitext filepath)) in
  if String.eqb file_ext ".dwg" then Raises (HTTPException 400 dwg_advice)
  else
    match disk st !! filepath with
    | None => Raises (Exception "No such file or directory")
    | Some contents =>
        match ezdxf_parse contents with
        | Some doc => Returns doc
        | None => Raises (Exception "not a DXF file")
        end
    end.

(** [parse_dxf_file]: [except Exception as e: print(...); return None]. *)
Definition parse_dxf_file (st : server) (filepath : string) : option document :=
  match parse_dxf_try st filepath with
  | Returns doc => Some doc
  | Raises _ => None
  end.

(** The [try]/[except] that the three query endpoints share: parse, refuse a
    missing document, build the response; wrap whatever was raised. *)
Definition processing {A} (st : server) (file_path : string)
  (respond : document -> A) : outcome A :=
  let body :=
    match parse_dxf_file st file_path with
    | None => Raises (HTTPException 400 "Failed to parse file")
    | Some doc => Returns (respond doc)
    end in
  match body with
  | Returns r => Returns r
  | Raises e =>
      Raises (HTTPException 500 ("Error processing file: " ++ exc_str e)%string)
  end.

Definition get_layers (st : server) (file_id : string) : outcome LayerResponse :=
  match file_storage st !! file_id with
  | None => Raises (HTTPException 404 "File not found")
  | Some file_info =>
      let file_path := stored_path file_id file_info in
      if negb (path_exists st file_path) then
        Raises (HTTPException 404 "File data not found on disk")
      else
        processing st file_path (fun doc =>
          mkLayerResponse file_id (filename file_info) (extract_layers doc))
  end.

Definition get_measurements (st : server) (file_id : string)
  : outcome MeasurementResponse :=
  match file_storage st !! file_id with
  | None => Raises (HTTPException 404 "File not found")
  | Some file_info =>
      let file_path := stored_path file_id file_info in
      if negb (path_exists st file_path) then
        Raises (HTTPException 404 "File data not found on disk")
      else
        processing st file_path (fun doc =>
          mkMeasurementResponse file_id (filename file_info)
                                (extract_measurements bbox_extents doc))
  end.

Definition get_preview (st : server) (file_id : string) : outcome PreviewResponse :=
  match file_storage st !! file_id with
  | None => Raises (HTTPException 404 "File not found")
  | Some file_info =>
      let file_path := stored_path file_id file_info in
      if negb (path_exists st file_path) then
        Raises (HTTPException 404 "File data not found on disk")
      else
        processing st file_path (fun doc =>
          let '(bbox, entities) := extract_preview_geometry bbox_extents doc in
          mkPreviewResponse file_id (filename file_info) bbox entities)
  end.

(** [upload_file].  [upload] is [file.filename] and the bytes of the upload;
    [file_id] is [str(uuid.uuid4())], [now] is [datetime.now()]; [fault] is
    the exception that writing the file raises, if it raises one. *)
Definition upload_file (st : server) (upload_name : option string)
  (contents : string) (file_id : string) (now : Z) (fault : option exn)
  : outcome UploadResponse * server :=
  match upload_name with
  | None | Some EmptyString =>
      (Raises (HTTPException 400 "No filename provided"), st)
  | Some filename =>
      let ext := lower (snd (splitext filename)) in
      if negb (String.eqb ext ".dxf" || String.eqb ext ".dwg") then
        (Raises (HTTPException 400 "Only .dxf and .dwg files are supported"), st)
      else
        let safe_filename := (file_id ++ ext)%string in
        let file_path := path_join UPLOAD_DIR safe_filename in
        match fault with
        | None =>
            let disk' := <[file_path := contents]> (disk st) in
            let file_size := Z.of_nat (String.length contents) in
            let info := mkFileInfo file_id filename file_size now
                                   (upper (str_drop 1 ext)) in
            (Returns (mkUploadResponse true file_id filename
                        ("File uploaded successfully. ID: " ++ file_id)%string),
             mkServer (<[file_id := info]> (file_storage st)) disk')
        | Some e =>
            (Raises (HTTPException 500 ("Upload failed: " ++ exc_str e)%string),
             mkServer (file_storage st) (delete file_path (disk st)))
        end
  end.

(** [delete_file] *)
Definition delete_file (st : server) (file_id : string) : outcome dict * server :=
  match file_storage st !! file_id with
  | None => (Raises (HTTPException 404 "File not found"), st)
  | Some file_info =>
      let file_path := stored_path file_id file_info in
      let disk' := if path_exists st file_path then delete file_path (disk st)
                   else disk st in
      (Returns [ ("success", VBool true);
                 ("message", VStr "File deleted successfully") ],
       mkServer (delete file_id (file_storage st)) disk')
  end.

End Endpoints.

Fixpoint occurs (c : ascii) (s : string) : bool :=
  match s with
  | EmptyString => false
  | String a s' => (Ascii.eqb a c || occurs c s')%bool
  end.

(** A file id as [uuid4] makes them: not empty, not starting with a dot,
    without a slash. *)
Definition plain_id (file_id : string) : bool :=
  (negb (String.eqb file_id "") && negb (starts_with "." file_id) &&
   negb (occurs "/" file_id))%bool.

(** The status code of what an endpoint raises. *)
Definition status_of {A} (r : outcome A) : option Z :=
  match r with
  | Raises (HTTPException code _) => Some code
  | _ => None
  end.

Definition empty_server : server := mkServer ∅ ∅.

(** A reader that takes every file for the one-line drawing, [str] on
    exceptions, and a sample id. *)
Definition any_parse (contents : string) : option document := Some doc_line.

Definition plain_str (e : exn) : string :=
  match e with
  | HTTPException _ detail => detail
  | Exception msg => msg
  end.

Definition sample_id : string := "3f2a9c1e-0d4b-4e6a-9b7c-5a1f2e3d4c5b".

(** ** Further notions *)

(** The sum of a list of integers. *)
Fixpoint Zsum (l : list Z) : Z :=
  match l with
  | [] => 0%Z
  | x :: l' => (x + Zsum l')%Z
  end.

(** The kinds for which the entity loop of [extract_layers] has no branch. *)
Definition counted_only (e : entity) : bool :=
  match geom e with
  | LINE _ _ | LWPOLYLINE _ _ | HATCH _ => false
  | _ => true
  end.

(** Every hatch area that can be read is non-negative. *)
Definition hatch_areas_nonneg (msp : list entity) : Prop :=
  forall e a, In e msp -> geom e = HATCH (Some a) -> 0 <= a.

(** The entity is a DIMENSION whose required reads all succeed; the entity
    has a projection. *)
Definition dimension_reads (e : entity) : bool :=
  match dim_data e with
  | Some _ => true
  | None => false
  end.

Definition projects (e : entity) : bool :=
  match preview_data (geom e) with
  | Some (Some _) => true
  | _ => false
  end.

(** The keys of the record of a dimension, in order. *)
Definition dimension_keys (e : entity) : list string :=
  [ "type"; "layer"; "text"; "actual_measurement"; "dimstyle" ] ++
  match geom e with
  | DIMENSION _ _ _ defpoint text_midpoint =>
      match defpoint with Some _ => [ "defpoint" ] | None => [] end ++
      match text_midpoint with Some _ => [ "text_midpoint" ] | None => [] end
  | _ => []
  end.

(** The points the fallback scan collects from a modelspace. *)
Definition scanned_points (msp : list entity) : list point3 :=
  fold_left fallback_step msp [].

(** The library's extents query gave no box. *)
Definition no_box (r : extents_result) : Prop :=
  match r with
  | ExtBox _ _ => False
  | _ => True
  end.

(** ** The polyline loop on doubles

    Lines 307 to 316 on IEEE binary64 values: the same loop as [poly_scan],
    with every operation rounded as Python rounds it. *)

Module Doubles.

Import PrimFloat.
#[local] Open Scope float_scope.

Definition poly_edge (points : list (float * float)) (la : float * float)
  (i : nat) : float * float :=
  let '(x1, y1) := nth i points (0, 0) in
  let '(x2, y2) := nth (Nat.modulo (i + 1) (length points)) points (0, 0) in
  (fst la + sqrt ((x2 - x1) * (x2 - x1) + (y2 - y1) * (y2 - y1)),
   snd la + (x1 * y2 - x2 * y1)).

Definition poly_scan (points : list (float * float)) : float * float :=
  fold_left (poly_edge points) (seq 0 (length points)) (0, 0).

(** [abs(area) / 2], what a closed polyline adds to [layer_closed_areas]. *)
Definition closed_area (points : list (float * float)) : float :=
  abs (snd (poly_scan points)) / 2.

#[local] Set Warnings "-inexact-float".




#[local] Set Warnings "+inexact-float".

End Doubles.

(** * Properties *)

Example get_color_name_7 : get_color_name 7 = "White/Black".
Proof. reflexivity. Qed.

Example get_color_name_256 : get_color_name 256 = "Color 256".
Proof. reflexivity. Qed.

Example get_color_name_neg : get_color_name (-3) = "Color -3".
Proof. reflexivity. Qed.

(** ** Dictionaries *)

Lemma dict_get_insert {A} (d : gmap string A) (k n : string) (v dflt : A) :
  dict_get (<[k := v]> d) n dflt = if decide (k = n) then v else dict_get d n dflt.
Proof.
  unfold dict_get. rewrite lookup_insert.
  destruct (decide (k = n)); reflexivity.
Qed.

Lemma dict_get_absent {A} (d : gmap string A) (k : string) (dflt : A) :
  d !! k = None -> dict_get d k dflt = dflt.
Proof. unfold dict_get. intros ->. reflexivity. Qed.

Lemma same_keys_empty : same_keys empty_acc.
Proof. split; reflexivity. Qed.

Lemma same_keys_absent acc k :
  same_keys acc -> layer_entity_counts acc !! k = None ->
  layer_line_lengths acc !! k = None /\ layer_closed_areas acc !! k = None.
Proof.
  intros [Hl Ha] Hk. apply not_elem_of_dom in Hk.
  split; apply not_elem_of_dom; congruence.
Qed.

Lemma same_keys_ensure acc k : same_keys acc -> same_keys (ensure_bucket acc k).
Proof.
  intros [Hl Ha]. unfold ensure_bucket.
  destruct (layer_entity_counts acc !! k); [ split; assumption | ].
  split; simpl; rewrite !dom_insert_L; congruence.
Qed.

(** After the [if layer_name not in ...] block the key is in all three
    dictionaries, so none of the [+=] that follow can raise [KeyError]. *)
Lemma ensure_bucket_key_present acc k :
  same_keys acc ->
  let acc' := ensure_bucket acc k in
  is_Some (layer_entity_counts acc' !! k) /\
  is_Some (layer_line_lengths acc' !! k) /\
  is_Some (layer_closed_areas acc' !! k).
Proof.
  intros Hs acc'.
  assert (Hc : is_Some (layer_entity_counts acc' !! k)).
  { subst acc'. unfold ensure_bucket.
    destruct (layer_entity_counts acc !! k) eqn:E; simpl.
    - rewrite E. eauto.
    - rewrite lookup_insert_eq. eauto. }
  destruct (same_keys_ensure acc k Hs) as [Hl Ha]. fold acc' in Hl, Ha.
  apply elem_of_dom in Hc.
  repeat split; apply elem_of_dom; congruence.
Qed.

Lemma dom_dict_add d k v : k ∈ dom d -> dom (dict_add d k v) = dom d.
Proof.
  intros Hk. unfold dict_add. rewrite dom_insert_L.
  apply subseteq_union_1_L, singleton_subseteq_l, Hk.
Qed.

Lemma dom_dict_incr d k : k ∈ dom d -> dom (dict_incr d k) = dom d.
Proof.
  intros Hk. unfold dict_incr. rewrite dom_insert_L.
  apply subseteq_union_1_L, singleton_subseteq_l, Hk.
Qed.

Lemma same_keys_step acc e : same_keys acc -> same_keys (layer_step acc e).
Proof.
  intros Hs.
  destruct (ensure_bucket_key_present acc (layer e) Hs) as (Hc & Hl & Ha).
  apply elem_of_dom in Hc, Hl, Ha.
  destruct (same_keys_ensure acc (layer e) Hs) as [El Ea].
  unfold layer_step, same_keys.
  destruct (geom e) as [| pts cl | [a|] | | | | | |]; simpl;
    try (destruct (1 <? length pts)%nat; [destruct (poly_scan pts) | ];
         simpl; try destruct cl);
    rewrite ?dom_dict_add, ?dom_dict_incr by assumption; auto.
Qed.

Lemma same_keys_fold msp acc :
  same_keys acc -> same_keys (fold_left layer_step msp acc).
Proof.
  revert acc. induction msp as [| e msp IH]; intros acc Hs; simpl; [ exact Hs | ].
  apply IH, same_keys_step, Hs.
Qed.

Lemma same_keys_scan msp : same_keys (scan_entities msp).
Proof. apply same_keys_fold, same_keys_empty. Qed.

(** ** The polyline loop *)

Lemma fold_left_Rsum {A} (g : A -> R) (l : list A) (a : R) :
  fold_left (fun s i => s + g i) l a = a + Rsum (map g l).
Proof.
  revert a. induction l as [| i l IH]; intros a; simpl.
  - lra.
  - rewrite IH. lra.
Qed.

Lemma poly_edge_eq pts a b i :
  poly_edge pts (a, b) i =
  (a + dist (nth i pts origin) (nth ((i + 1) mod length pts) pts origin),
   b + cross (nth i pts origin) (nth ((i + 1) mod length pts) pts origin)).
Proof. reflexivity. Qed.

Lemma poly_edge_fold pts l a b :
  fold_left (poly_edge pts) l (a, b) =
  (a + Rsum (map (fun i => dist (nth i pts origin)
                                (nth ((i + 1) mod length pts) pts origin)) l),
   b + Rsum (map (fun i => cross (nth i pts origin)
                                 (nth ((i + 1) mod length pts) pts origin)) l)).
Proof.
  revert a b. induction l as [| i l IH]; intros a b;
    cbn [fold_left map Rsum].
  - f_equal; lra.
  - rewrite poly_edge_eq, IH. f_equal; lra.
Qed.

Lemma poly_scan_spec pts :
  poly_scan pts = (edge_sum dist pts, edge_sum cross pts).
Proof.
  unfold poly_scan. rewrite poly_edge_fold. unfold edge_sum. f_equal; lra.
Qed.

Lemma dist_self v : dist v v = 0.
Proof.
  unfold dist.
  replace ((px v - px v) ^ 2 + (py v - py v) ^ 2) with 0 by ring.
  apply sqrt_0.
Qed.

Lemma cross_self v : cross v v = 0.
Proof. unfold cross. ring. Qed.

Lemma edge_sum_short f pts :
  (forall v, f v v = 0) -> (length pts <= 1)%nat -> edge_sum f pts = 0.
Proof.
  intros Hf Hn. destruct pts as [| v [| w pts]]; simpl in Hn; try lia.
  - reflexivity.
  - unfold edge_sum. simpl. rewrite Hf. lra.
Qed.

(** ** One iteration of the entity loop *)

Lemma layer_step_counts acc e :
  layer_entity_counts (layer_step acc e) =
  dict_incr (layer_entity_counts (ensure_bucket acc (layer e))) (layer e).
Proof.
  unfold layer_step.
  destruct (geom e) as [| pts cl | [a|] | | | | | |]; simpl; try reflexivity.
  destruct (1 <? length pts)%nat; [ destruct (poly_scan pts) | ]; reflexivity.
Qed.

Lemma layer_step_count acc e n :
  count_of (layer_step acc e) n =
  (count_of acc n + (if decide (layer e = n) then 1 else 0))%Z.
Proof.
  unfold count_of. rewrite layer_step_counts. unfold dict_incr. rewrite dict_get_insert.
  unfold ensure_bucket.
  destruct (layer_entity_counts acc !! layer e) eqn:E; simpl.
  - destruct (decide (layer e = n)) as [<- |]; lia.
  - rewrite !dict_get_insert.
    destruct (decide (layer e = n)) as [<- |]; [ | lia ].
    rewrite decide_True by reflexivity.
    rewrite (dict_get_absent _ _ _ E). lia.
Qed.

Lemma ensure_bucket_length acc k n :
  same_keys acc -> length_of (ensure_bucket acc k) n = length_of acc n.
Proof.
  intros Hs. unfold ensure_bucket, length_of.
  destruct (layer_entity_counts acc !! k) eqn:E; simpl; [ reflexivity | ].
  rewrite dict_get_insert. destruct (decide (k = n)) as [<- |]; [ | reflexivity ].
  destruct (same_keys_absent acc k Hs E) as [Hl _].
  symmetry. apply dict_get_absent, Hl.
Qed.

Lemma ensure_bucket_area acc k n :
  same_keys acc -> area_of (ensure_bucket acc k) n = area_of acc n.
Proof.
  intros Hs. unfold ensure_bucket, area_of.
  destruct (layer_entity_counts acc !! k) eqn:E; simpl; [ reflexivity | ].
  rewrite dict_get_insert. destruct (decide (k = n)) as [<- |]; [ | reflexivity ].
  destruct (same_keys_absent acc k Hs E) as [_ Ha].
  symmetry. apply dict_get_absent, Ha.
Qed.

Lemma dict_get_add d k n v :
  dict_get (dict_add d k v) n 0 =
  dict_get d n 0 + (if decide (k = n) then v else 0).
Proof.
  unfold dict_add. rewrite dict_get_insert.
  destruct (decide (k = n)) as [<- |]; lra.
Qed.

Lemma layer_step_length acc e n :
  same_keys acc ->
  length_of (layer_step acc e) n =
  length_of acc n + (if decide (layer e = n) then length_contrib e else 0).
Proof.
  intros Hs. rewrite <- (ensure_bucket_length acc (layer e) n Hs).
  unfold layer_step, length_contrib, length_of.
  destruct (geom e) as [s t | pts cl | [a|] | | | | | |]; simpl;
    try (destruct (decide (layer e = n)); lra).
  - apply dict_get_add.
  - destruct (1 <? length pts)%nat eqn:En.
    + rewrite poly_scan_spec. simpl. apply dict_get_add.
    + apply Nat.ltb_ge in En. simpl.
      rewrite (edge_sum_short dist pts dist_self En).
      destruct (decide (layer e = n)); lra.
Qed.

Lemma layer_step_area acc e n :
  same_keys acc ->
  area_of (layer_step acc e) n =
  area_of acc n + (if decide (layer e = n) then area_contrib e else 0).
Proof.
  intros Hs. rewrite <- (ensure_bucket_area acc (layer e) n Hs).
  unfold layer_step, area_contrib, area_of, shoelace_area.
  destruct (geom e) as [s t | pts cl | [a|] | | | | | |]; simpl;
    try (destruct (decide (layer e = n)); lra).
  - destruct (1 <? length pts)%nat eqn:En.
    + rewrite poly_scan_spec. destruct cl; simpl.
      * apply dict_get_add.
      * destruct (decide (layer e = n)); lra.
    + apply Nat.ltb_ge in En. simpl.
      rewrite (edge_sum_short cross pts cross_self En).
      rewrite Rabs_R0.
      destruct cl; destruct (decide (layer e = n)); lra.
  - apply dict_get_add.
Qed.

(** ** The whole scan *)

Lemma on_layer_decide n e :
  on_layer n e = if decide (layer e = n) then true else false.
Proof.
  unfold on_layer. destruct (decide (layer e = n)) as [-> | Hne].
  - apply String.eqb_refl.
  - apply String.eqb_neq, Hne.
Qed.

Lemma fold_count msp acc n :
  count_of (fold_left layer_step msp acc) n =
  (count_of acc n + Z.of_nat (length (entities_on n msp)))%Z.
Proof.
  revert acc. induction msp as [| e msp IH]; intros acc; simpl.
  - lia.
  - rewrite IH, layer_step_count, on_layer_decide.
    destruct (decide (layer e = n)); simpl length; lia.
Qed.

Lemma fold_length msp acc n :
  same_keys acc ->
  length_of (fold_left layer_step msp acc) n =
  length_of acc n + Rsum (map length_contrib (entities_on n msp)).
Proof.
  revert acc. induction msp as [| e msp IH]; intros acc Hs; simpl.
  - lra.
  - rewrite IH by apply same_keys_step, Hs.
    rewrite layer_step_length by exact Hs. rewrite on_layer_decide.
    destruct (decide (layer e = n)); simpl; lra.
Qed.

Lemma fold_area msp acc n :
  same_keys acc ->
  area_of (fold_left layer_step msp acc) n =
  area_of acc n + Rsum (map area_contrib (entities_on n msp)).
Proof.
  revert acc. induction msp as [| e msp IH]; intros acc Hs; simpl.
  - lra.
  - rewrite IH by apply same_keys_step, Hs.
    rewrite layer_step_area by exact Hs. rewrite on_layer_decide.
    destruct (decide (layer e = n)); simpl; lra.
Qed.

Lemma scan_count msp n :
  count_of (scan_entities msp) n = Z.of_nat (length (entities_on n msp)).
Proof. unfold scan_entities. rewrite fold_count. reflexivity. Qed.

Lemma scan_length msp n :
  length_of (scan_entities msp) n = Rsum (map length_contrib (entities_on n msp)).
Proof.
  unfold scan_entities. rewrite fold_length by apply same_keys_empty.
  unfold length_of, empty_acc, dict_get. simpl. rewrite lookup_empty. simpl. lra.
Qed.

Lemma scan_area msp n :
  area_of (scan_entities msp) n = Rsum (map area_contrib (entities_on n msp)).
Proof.
  unfold scan_entities. rewrite fold_area by apply same_keys_empty.
  unfold area_of, empty_acc, dict_get. simpl. rewrite lookup_empty. simpl. lra.
Qed.

Lemma fold_keeps_bucket msp acc n :
  is_Some (layer_entity_counts acc !! n) ->
  is_Some (layer_entity_counts (fold_left layer_step msp acc) !! n).
Proof.
  revert acc. induction msp as [| e msp IH]; intros acc Hn; simpl; [ exact Hn | ].
  apply IH. apply elem_of_dom. apply elem_of_dom in Hn.
  rewrite layer_step_counts. unfold dict_incr, ensure_bucket.
  destruct (layer_entity_counts acc !! layer e); simpl;
    rewrite !dom_insert_L; set_unfold; auto.
Qed.

Lemma scan_has_bucket msp e :
  In e msp -> layer_entity_counts (scan_entities msp) !! layer e <> None.
Proof.
  intros He. apply in_split in He. destruct He as (l1 & l2 & ->).
  unfold scan_entities. rewrite fold_left_app. simpl.
  intros Hn.
  assert (Hs : is_Some (layer_entity_counts
                          (fold_left layer_step l2
                             (layer_step (fold_left layer_step l1 empty_acc) e))
                        !! layer e)).
  { apply fold_keeps_bucket.
    set (acc := fold_left layer_step l1 empty_acc).
    pose proof (layer_step_count acc e (layer e)) as Hc.
    unfold count_of, dict_get in Hc. rewrite decide_True in Hc by reflexivity.
    destruct (layer_entity_counts (layer_step acc e) !! layer e) eqn:E; [ eauto | ].
    exfalso. revert E. unfold layer_step.
    destruct (geom e) as [| pts cl | [a|] | | | | | |]; simpl;
      try (destruct (1 <? length pts)%nat; [ destruct (poly_scan pts) | ]; simpl);
      unfold dict_incr; rewrite lookup_insert_eq; discriminate. }
  rewrite Hn in Hs. destruct Hs as [? Hs]. discriminate Hs.
Qed.

Lemma scan_snoc msp e : scan_entities (msp ++ [ e ]) = layer_step (scan_entities msp) e.
Proof. unfold scan_entities. rewrite fold_left_app. reflexivity. Qed.

(** ** The rows of [extract_layers] *)

Lemma row_names doc : map li_name (extract_layers doc) = map name (layers doc).
Proof.
  unfold extract_layers. rewrite map_map. reflexivity.
Qed.

Lemma row_inv doc row :
  In row (extract_layers doc) ->
  exists l, In l (layers doc) /\
            row = layer_row (scan_entities (modelspace doc)) l.
Proof.
  unfold extract_layers. intros H. apply in_map_iff in H.
  destruct H as (l & <- & Hl). eauto.
Qed.

(** The data-model invariant of a row: count, length and area are taken
    over the entities that sit on the row's layer. *)
Lemma row_totals doc row :
  In row (extract_layers doc) ->
  let on := entities_on (li_name row) (modelspace doc) in
  entity_count row = Z.of_nat (length on) /\
  line_length row = round4 (Rsum (map length_contrib on)) /\
  closed_area row = round4 (Rsum (map area_contrib on)).
Proof.
  intros H. destruct (row_inv doc row H) as (l & _ & ->). simpl.
  fold (count_of (scan_entities (modelspace doc)) (name l)).
  fold (length_of (scan_entities (modelspace doc)) (name l)).
  fold (area_of (scan_entities (modelspace doc)) (name l)).
  rewrite scan_count, scan_length, scan_area. auto.
Qed.

Lemma count_occ_NoDup_In (l : list string) (n : string) :
  List.NoDup l -> In n l -> count_occ string_dec l n = 1%nat.
Proof.
  intros Hnd Hin.
  apply (proj1 (List.NoDup_count_occ' string_dec l) Hnd n Hin).
Qed.

(** C4. Layer completeness.  The rows of [extract_layers] carry the names of
    the layer table, one row per table entry and in table order, so a name
    occurs among the rows as often as in the table, exactly once when the
    table lists it once; and the [entity_count] of every row is the number
    of entities of the document whose layer is the row's name (zero when
    there is none). *)
Theorem layer_completeness (doc : document) :
  map li_name (extract_layers doc) = map name (layers doc) /\
  (forall row, In row (extract_layers doc) ->
     entity_count row =
     Z.of_nat (length (entities_on (li_name row) (modelspace doc)))) /\
  (List.NoDup (map name (layers doc)) ->
   forall n, In n (map name (layers doc)) ->
     count_occ string_dec (map li_name (extract_layers doc)) n = 1%nat).
Proof.
  split; [ apply row_names | split ].
  - intros row H. apply (row_totals doc row H).
  - intros Hnd n Hin. rewrite row_names. apply count_occ_NoDup_In; assumption.
Qed.

Lemma layer_completeness_witness :
  count_occ string_dec (map li_name (extract_layers doc_line)) "A" = 1%nat.
Proof.
  apply (proj2 (proj2 (layer_completeness doc_line))).
  - simpl. constructor; [ intros [] | constructor ].
  - simpl. left. reflexivity.
Defined.

(** A layer of the table that no entity references still has its row, with
    a count of zero. *)
Lemma unreferenced_layer_row doc l :
  In l (layers doc) -> entities_on (name l) (modelspace doc) = [] ->
  exists row, In row (extract_layers doc) /\ li_name row = name l /\
              entity_count row = 0%Z.
Proof.
  intros Hl Hn. exists (layer_row (scan_entities (modelspace doc)) l).
  split; [ apply in_map, Hl | split; [ reflexivity | ] ].
  simpl. fold (count_of (scan_entities (modelspace doc)) (name l)).
  rewrite scan_count, Hn. reflexivity.
Qed.

(** C1, as stated, fails: the entity [stray] sits on layer GHOST, the layer
    table of [doc_stray] lists only layer 0, and no row of the output
    carries the name GHOST. *)
Lemma stray_layer_has_no_row :
  In stray (modelspace doc_stray) /\
  ~ In (layer stray) (map name (layers doc_stray)) /\
  ~ (exists row, In row (extract_layers doc_stray) /\
                 li_name row = layer stray).
Proof.
  split; [ left; reflexivity | split ].
  - simpl. intros [H | []]. discriminate H.
  - intros (row & Hin & Hname).
    apply (in_map li_name) in Hin. rewrite row_names, Hname in Hin.
    simpl in Hin. destruct Hin as [H | []]. discriminate H.
Qed.

(** C1, amended.  An entity whose layer is absent from the layer table is
    counted in the bucket the scan keeps for its layer name, but the output
    has no row of that name: rows are made for the entries of the layer
    table only. *)
Theorem stray_layer_counted_not_reported (doc : document) (e : entity) :
  In e (modelspace doc) ->
  ~ In (layer e) (map name (layers doc)) ->
  let acc := scan_entities (modelspace doc) in
  layer_entity_counts acc !! layer e =
    Some (Z.of_nat (length (entities_on (layer e) (modelspace doc)))) /\
  In e (entities_on (layer e) (modelspace doc)) /\
  ~ (exists row, In row (extract_layers doc) /\ li_name row = layer e).
Proof.
  intros He Hout acc. split; [ | split ].
  - pose proof (scan_count (modelspace doc) (layer e)) as Hc.
    fold acc in Hc. unfold count_of, dict_get in Hc.
    destruct (layer_entity_counts acc !! layer e) as [c |] eqn:E.
    + simpl in Hc. congruence.
    + exfalso. subst acc. apply (scan_has_bucket _ _ He) in E. exact E.
  - apply List.filter_In. split; [ exact He | ].
    unfold on_layer. apply String.eqb_refl.
  - intros (row & Hin & Hname).
    apply (in_map li_name) in Hin. rewrite row_names, Hname in Hin.
    exact (Hout Hin).
Qed.

Lemma stray_layer_counted_not_reported_witness :
  layer_entity_counts (scan_entities (modelspace doc_stray)) !! "GHOST" =
    Some 1%Z /\
  ~ (exists row, In row (extract_layers doc_stray) /\ li_name row = "GHOST").
Proof.
  destruct (stray_layer_counted_not_reported doc_stray stray) as (Hc & _ & Hr).
  - left. reflexivity.
  - simpl. intros [H | []]. discriminate H.
  - split; [ exact Hc | exact Hr ].
Defined.

(** ** The ring of a vertex sequence *)

Lemma Rsum_app l1 l2 : Rsum (l1 ++ l2) = Rsum l1 + Rsum l2.
Proof. induction l1 as [| x l1 IH]; simpl; [ | rewrite IH ]; lra. Qed.

Lemma nth_last_index (v : lwpoint) (l : list lwpoint) d d' :
  nth (length l) (v :: l) d = List.last (v :: l) d'.
Proof.
  revert v. induction l as [| w l IH]; intros v; [ reflexivity | ].
  change (nth (length l) (w :: l) d = List.last (w :: l) d'). apply IH.
Qed.

Lemma hd_rev_last {A} (l : list A) (d : A) : hd d (rev l) = List.last l d.
Proof.
  rewrite <- (rev_involutive l) at 2.
  destruct (rev l) as [| w t]; [ reflexivity | ].
  simpl. rewrite last_last. reflexivity.
Qed.

(** The sum over the consecutive pairs, by index. *)
Lemma path_sum_index f pts :
  Rsum (map (fun i => f (nth i pts origin) (nth (S i) pts origin))
            (seq 0 (length pts - 1))) = path_sum f pts.
Proof.
  induction pts as [| a pts IH]; [ reflexivity | ].
  destruct pts as [| b pts]; [ reflexivity | ].
  replace (length (a :: b :: pts) - 1)%nat with (S (length (b :: pts) - 1))
    by (simpl; lia).
  rewrite <- cons_seq, <- seq_shift.
  change (path_sum f (a :: b :: pts)) with (f a b + path_sum f (b :: pts)).
  cbn [map Rsum]. rewrite map_map, <- IH. reflexivity.
Qed.

(** The indexed sum with wrap-around is the sum over consecutive vertices
    plus the closing edge. *)
Lemma edge_sum_ring f pts : edge_sum f pts = ring_sum f pts.
Proof.
  destruct pts as [| v0 rest]; [ reflexivity | ].
  unfold edge_sum, ring_sum. set (pts := v0 :: rest).
  assert (Hn : length pts = S (length rest)) by reflexivity.
  change (seq 0 (length pts)) with (seq 0 (S (length rest))).
  rewrite seq_S, map_app, Rsum_app. simpl Nat.add.
  cbn [map Rsum]. f_equal.
  - rewrite <- path_sum_index.
    replace (length pts - 1)%nat with (length rest) by (rewrite Hn; lia).
    f_equal. apply map_ext_in. intros i Hi. apply in_seq in Hi.
    rewrite Nat.mod_small by lia. rewrite Nat.add_1_r. reflexivity.
  - rewrite Hn. replace (length rest + 1)%nat with (S (length rest)) by lia.
    rewrite Nat.Div0.mod_same. subst pts.
    rewrite (nth_last_index v0 rest origin v0). simpl nth. lra.
Qed.

Section Antisymmetric.

Variable f : lwpoint -> lwpoint -> R.
Hypothesis f_anti : forall a b, f a b = - f b a.

Lemma path_sum_snoc l a d :
  l <> [] -> path_sum f (l ++ [ a ]) = path_sum f l + f (List.last l d) a.
Proof.
  induction l as [| x l IH]; intros Hne; [ congruence | ].
  destruct l as [| y l].
  - simpl. lra.
  - change (f x y + path_sum f ((y :: l) ++ [ a ]) =
            f x y + path_sum f (y :: l) + f (List.last (y :: l) d) a).
    rewrite IH by discriminate. lra.
Qed.

Lemma path_sum_rev l : path_sum f (rev l) = - path_sum f l.
Proof.
  induction l as [| x l IH]; [ simpl; lra | ].
  destruct l as [| y l]; [ simpl; lra | ].
  change (rev (x :: y :: l)) with (rev (y :: l) ++ [ x ]).
  rewrite (path_sum_snoc _ _ origin).
  - rewrite IH. simpl rev. rewrite last_last.
    cbn [path_sum]. rewrite (f_anti x y). lra.
  - simpl. intros H. apply app_eq_nil in H. destruct H as [_ H]. discriminate H.
Qed.

Lemma ring_sum_ends pts :
  pts <> [] ->
  ring_sum f pts = path_sum f pts + f (List.last pts origin) (hd origin pts).
Proof.
  destruct pts as [| v0 rest]; [ congruence | intros _ ].
  unfold ring_sum. simpl hd.
  rewrite <- (nth_last_index v0 rest origin v0),
          <- (nth_last_index v0 rest origin origin). reflexivity.
Qed.

Lemma ring_sum_rev pts : ring_sum f (rev pts) = - ring_sum f pts.
Proof.
  destruct pts as [| v0 rest]; [ simpl; lra | ].
  assert (Hne : rev (v0 :: rest) <> []).
  { simpl. intros H. apply app_eq_nil in H. destruct H as [_ H]. discriminate H. }
  rewrite (ring_sum_ends _ Hne), ring_sum_ends by discriminate.
  rewrite path_sum_rev. simpl rev at 1. rewrite last_last. simpl hd.
  change (rev rest ++ [ v0 ]) with (rev (v0 :: rest)).
  rewrite hd_rev_last. rewrite (f_anti v0). lra.
Qed.

End Antisymmetric.

Lemma cross_anti a b : cross a b = - cross b a.
Proof. unfold cross. ring. Qed.

Lemma shoelace_area_nonneg pts : 0 <= shoelace_area pts.
Proof.
  unfold shoelace_area. pose proof (Rabs_pos (edge_sum cross pts)). lra.
Qed.

Lemma shoelace_area_rev pts : shoelace_area (rev pts) = shoelace_area pts.
Proof.
  unfold shoelace_area. rewrite !edge_sum_ring.
  rewrite (ring_sum_rev cross cross_anti), Rabs_Ropp. reflexivity.
Qed.

(** ** Polylines in the layer statistics *)

(** C2. Whatever entities were scanned before, scanning a polyline adds to
    the line length of its layer the sum of the distances over the edges
    [v_i -> v_{(i+1) mod n}], whether its [closed] flag is set or not; that
    sum is the length along the consecutive vertices plus the edge from the
    last vertex back to the first. *)
Theorem polyline_length_closes_ring
  (msp : list entity) (lay : string) (col : option Z)
  (pts : list lwpoint) (closed : bool) :
  let e := mkEntity lay col (LWPOLYLINE pts closed) in
  length_of (scan_entities (msp ++ [ e ])) lay =
    length_of (scan_entities msp) lay + edge_sum dist pts /\
  edge_sum dist pts =
    match pts with
    | [] => 0
    | v0 :: _ => path_sum dist pts + dist (List.last pts v0) v0
    end.
Proof.
  intros e. split.
  - rewrite scan_snoc, layer_step_length by apply same_keys_scan.
    subst e. simpl. rewrite decide_True by reflexivity. reflexivity.
  - apply edge_sum_ring.
Qed.



(** C10. A polyline with fewer than two vertices, closed or not, leaves the
    line length and the closed area of its layer as they were, and raises
    the entity count of the layer by one. *)
Theorem short_polyline_counts_only
  (msp : list entity) (lay : string) (col : option Z)
  (pts : list lwpoint) (closed : bool) :
  (length pts < 2)%nat ->
  let e := mkEntity lay col (LWPOLYLINE pts closed) in
  length_of (scan_entities (msp ++ [ e ])) lay = length_of (scan_entities msp) lay /\
  area_of (scan_entities (msp ++ [ e ])) lay = area_of (scan_entities msp) lay /\
  count_of (scan_entities (msp ++ [ e ])) lay =
    (count_of (scan_entities msp) lay + 1)%Z.
Proof.
  intros Hn e. assert (Hn' : (length pts <= 1)%nat) by lia.
  rewrite scan_snoc. split; [ | split ].
  - rewrite layer_step_length by apply same_keys_scan.
    subst e. unfold length_contrib. simpl. rewrite decide_True by reflexivity.
    rewrite (edge_sum_short dist pts dist_self Hn'). lra.
  - rewrite layer_step_area by apply same_keys_scan.
    subst e. unfold area_contrib, shoelace_area. simpl.
    rewrite decide_True by reflexivity.
    rewrite (edge_sum_short cross pts cross_self Hn'), Rabs_R0.
    destruct closed; lra.
  - rewrite layer_step_count. subst e. simpl.
    rewrite decide_True by reflexivity. reflexivity.
Qed.

Lemma short_polyline_counts_only_witness :
  let e := mkEntity "B" None (LWPOLYLINE [ at_ 1 2 ] true) in
  length_of (scan_entities ([ line_A ] ++ [ e ])) "B" =
    length_of (scan_entities [ line_A ]) "B" /\
  area_of (scan_entities ([ line_A ] ++ [ e ])) "B" =
    area_of (scan_entities [ line_A ]) "B" /\
  count_of (scan_entities ([ line_A ] ++ [ e ])) "B" =
    (count_of (scan_entities [ line_A ]) "B" + 1)%Z.
Proof.
  apply (short_polyline_counts_only [ line_A ] "B" None [ at_ 1 2 ] true).
  simpl. lia.
Defined.

(** The scenario of the specification: the closed rectangle
    (0,0) (4,0) (4,3) (0,3) has perimeter 14 and area 12. *)
Lemma sqrt_of_square a : 0 <= a -> forall b, b = a * a -> sqrt b = a.
Proof. intros Ha b ->. apply sqrt_square, Ha. Qed.

Example rectangle_perimeter : edge_sum dist rectangle = 14.
Proof.
  unfold edge_sum, rectangle, dist, at_. simpl.
  rewrite (sqrt_of_square 4), (sqrt_of_square 3), (sqrt_of_square 4),
          (sqrt_of_square 3) by lra.
  lra.
Qed.

Example rectangle_area : shoelace_area rectangle = 12.
Proof.
  unfold shoelace_area, edge_sum, rectangle, cross, at_. simpl.
  replace (0 * 0 - 4 * 0 + (4 * 3 - 4 * 0 + (4 * 3 - 0 * 3 + (0 * 0 - 0 * 3 + 0))))
    with 24 by lra.
  rewrite Rabs_pos_eq by lra. lra.
Qed.

(** ** Sums, minima and maxima *)

Lemma py_sum_Rsum l : py_sum l = Rsum l.
Proof.
  unfold py_sum.
  pose proof (fold_left_Rsum (fun x : R => x) l 0) as H.
  rewrite map_id in H. rewrite <- (Rplus_0_l (Rsum l)). exact H.
Qed.



Lemma fold_Rmax_ge l a : a <= fold_left Rmax l a.
Proof.
  revert a. induction l as [| y l IH]; intros a; simpl; [ lra | ].
  pose proof (IH (Rmax a y)). pose proof (Rmax_l a y). lra.
Qed.

Lemma fold_Rmax_In l a x : In x l -> x <= fold_left Rmax l a.
Proof.
  revert a. induction l as [| y l IH]; intros a H; [ destruct H | ].
  destruct H as [-> | H]; simpl.
  - pose proof (fold_Rmax_ge l (Rmax a x)). pose proof (Rmax_r a x). lra.
  - apply IH, H.
Qed.


Lemma py_max_ge l x : In x l -> x <= py_max l.
Proof.
  destruct l as [| y l]; intros H; [ destruct H | ].
  destruct H as [-> | H]; simpl.
  - apply fold_Rmax_ge.
  - apply fold_Rmax_In, H.
Qed.

(** ** Loops that append *)

Lemma fold_left_append {A B} (step : list A -> B -> list A) (f : B -> list A) :
  (forall acc e, step acc e = acc ++ f e) ->
  forall l acc, fold_left step l acc = acc ++ flat_map f l.
Proof.
  intros Hstep l. induction l as [| e l IH]; intros acc; simpl.
  - rewrite app_nil_r. reflexivity.
  - rewrite IH, Hstep, <- app_assoc. reflexivity.
Qed.

Lemma all_points_flat msp :
  fold_left fallback_step msp [] = flat_map fallback_points msp.
Proof. apply (fold_left_append fallback_step fallback_points). reflexivity. Qed.

Lemma dimension_step_append dims e :
  dimension_step dims e = dims ++ dimension_of e.
Proof.
  unfold dimension_of, dimension_step.
  destruct (is_dimension e); [ destruct (dim_data e) | ];
    simpl; rewrite ?app_nil_r; reflexivity.
Qed.

Lemma preview_step_append ents e :
  preview_step ents e = ents ++ projection_of e.
Proof.
  unfold projection_of, preview_step.
  destruct (preview_data (geom e)) as [[d |] |];
    simpl; rewrite ?app_nil_r; reflexivity.
Qed.

Lemma scan_dimensions_flat msp : scan_dimensions msp = flat_map dimension_of msp.
Proof.
  apply (fold_left_append dimension_step dimension_of dimension_step_append).
Qed.

Lemma scan_preview_flat msp : scan_preview msp = flat_map projection_of msp.
Proof.
  apply (fold_left_append preview_step projection_of preview_step_append).
Qed.

(** ** Measurements and bounding box *)

(** C5. Sum invariant: the two totals of the measurements are the sums of
    the line lengths and of the closed areas of the rows that
    [extract_layers] returns, rounded to four decimals. *)
Theorem totals_are_rounded_sums
  (ext : list entity -> extents_result) (doc : document) :
  total_line_length (extract_measurements ext doc) =
    round4 (Rsum (map line_length (extract_layers doc))) /\
  total_closed_area (extract_measurements ext doc) =
    round4 (Rsum (map closed_area (extract_layers doc))).
Proof.
  unfold extract_measurements. simpl. rewrite !py_sum_Rsum. auto.
Qed.









(** ** Failures of single entities *)






Lemma dimension_of_reads e r : dim_data e = Some r -> dimension_of e = [ r ].
Proof.
  intros Hr. unfold dimension_of, dimension_step. rewrite Hr.
  assert (Hd : is_dimension e = true).
  { unfold dim_data in Hr. unfold is_dimension.
    destruct (geom e); try discriminate Hr. reflexivity. }
  rewrite Hd. reflexivity.
Qed.




Example mixed_dimensions :
  dimensions (extract_measurements no_extents doc_mixed) =
  [ [ ("type", VStr "DIMENSION"); ("layer", VStr "DIMS"); ("text", VStr "5.00");
      ("actual_measurement", VNum 5); ("dimstyle", VStr "STANDARD");
      ("defpoint", VVec (mkVec3 0 0 0)) ] ].
Proof. reflexivity. Qed.

Example mixed_preview :
  snd (extract_preview_geometry no_extents doc_mixed) =
  [ mkGeometryEntity "LINE" "A" 7
      [ ("start", VList [ VNum 0; VNum 0 ]); ("end", VList [ VNum 3; VNum 4 ]) ] ].
Proof. reflexivity. Qed.

(** ** The preview projection *)

Lemma projection_of_inv e g :
  In g (projection_of e) ->
  exists data, preview_data (geom e) = Some (Some data) /\
               g = mkGeometryEntity (dxftype e) (layer e) (default 7%Z (color e)) data.
Proof.
  unfold projection_of, preview_step.
  destruct (preview_data (geom e)) as [[data |] |]; simpl; try tauto.
  intros [<- | []]. eauto.
Qed.

Lemma preview_data_shape e data :
  preview_data (geom e) = Some (Some data) ->
  In (dxftype e) preview_kinds /\
  map fst data = payload_fields (dxftype e) /\
  forallb planar data = true.
Proof.
  unfold dxftype.
  destruct (geom e) as [s t | pts cl | a | tx m st dp tm | c r | c r a b
                        | p tx h rot | p tx h rot | tag pts ]; simpl;
    intros H; try discriminate H.
  - injection H as <-. simpl. repeat split; auto.
  - injection H as <-. simpl. repeat split; auto.
    rewrite Bool.andb_true_r. induction pts as [| v pts IH]; simpl; auto.
  - destruct c, r; simpl in H; try discriminate H.
    injection H as <-. simpl. repeat split; auto.
  - destruct c, r, a, b; simpl in H; try discriminate H.
    injection H as <-. simpl. repeat split; auto 6.
  - destruct p, tx, h; simpl in H; try discriminate H.
    injection H as <-. simpl. repeat split; auto 6.
  - destruct p, tx, h; simpl in H; try discriminate H.
    injection H as <-. simpl. repeat split; auto 7.
Qed.

Lemma other_kinds_not_projected e :
  ~ In (dxftype e) preview_kinds -> projection_of e = [].
Proof.
  intros Hk. unfold projection_of, preview_step.
  destruct (preview_data (geom e)) as [[data |] |] eqn:E; try reflexivity.
  exfalso. apply Hk. apply (preview_data_shape e data E).
Qed.

Lemma projection_is_table e : projection_of e = table_records e.
Proof.
  unfold projection_of, preview_step, table_records.
  destruct (geom e) as [s t | pts cl | a | tx m st dp tm | [c |] [r |]
                        | [c |] [r |] [a |] [b |]
                        | [q |] [tx |] [h |] rot | [q |] [tx |] [h |] rot
                        | tag pts ]; try reflexivity;
    destruct rot; reflexivity.
Qed.

(** C9. The preview is, in the order of the entities, one record for every
    LINE, LWPOLYLINE, CIRCLE, ARC, TEXT and MTEXT that has the fields of its
    kind, and nothing else: an entity of another kind has no record.  The
    record of an entity carries its kind, its layer, its color (7 when the
    entity exposes none) and the payload of the table, built from the
    planar coordinates and the fields of that entity; its keys are exactly
    the payload fields of its kind and every point is an [x, y] pair. *)
Theorem preview_projects_six_kinds
  (ext : list entity -> extents_result) (doc : document) :
  snd (extract_preview_geometry ext doc) =
    flat_map table_records (modelspace doc) /\
  (forall e data, In e (modelspace doc) -> table_payload (geom e) = Some data ->
     In (mkGeometryEntity (dxftype e) (layer e)
           match color e with Some c => c | None => 7%Z end data)
        (snd (extract_preview_geometry ext doc))) /\
  (forall e, ~ In (dxftype e) preview_kinds -> table_records e = []) /\
  (forall g, In g (snd (extract_preview_geometry ext doc)) ->
     exists e, In e (modelspace doc) /\ In g (table_records e)) /\
  (forall e g, In g (table_records e) ->
     In (ge_type g) preview_kinds /\
     ge_type g = dxftype e /\
     ge_layer g = layer e /\
     ge_color g = match color e with Some c => c | None => 7%Z end /\
     map fst (ge_data g) = payload_fields (ge_type g) /\
     forallb planar (ge_data g) = true).
Proof.
  assert (Hflat : snd (extract_preview_geometry ext doc) =
                  flat_map table_records (modelspace doc)).
  { unfold extract_preview_geometry. cbn [snd]. rewrite scan_preview_flat.
    apply flat_map_ext. intros e. apply projection_is_table. }
  split; [ exact Hflat | split; [ | split; [ | split ] ] ].
  - intros e data He Hd. rewrite Hflat. apply in_flat_map. exists e.
    split; [ exact He | ]. unfold table_records. rewrite Hd. left. reflexivity.
  - intros e Hk. rewrite <- projection_is_table.
    apply other_kinds_not_projected, Hk.
  - intros g Hg. rewrite Hflat in Hg. apply in_flat_map in Hg. exact Hg.
  - intros e g Hg. rewrite <- projection_is_table in Hg.
    apply projection_of_inv in Hg.
    destruct Hg as (data & Hd & ->). simpl.
    destruct (preview_data_shape e data Hd) as (Hk & Hf & Hp).
    repeat split; assumption.
Qed.

Lemma preview_projects_six_kinds_witness :
  In (mkGeometryEntity "LINE" "A" 7
        [ ("start", VList [ VNum 0; VNum 0 ]);
          ("end", VList [ VNum 3; VNum 4 ]) ])
     (snd (extract_preview_geometry no_extents doc_mixed)) /\
  table_records dim_ok = [].
Proof.
  split.
  - apply (proj1 (proj2 (preview_projects_six_kinds no_extents doc_mixed)) line_A).
    + simpl. auto.
    + reflexivity.
  - apply (proj1 (proj2 (proj2 (preview_projects_six_kinds no_extents doc_mixed)))
             dim_ok).
    simpl. intros H. repeat (destruct H as [H | H]; [ discriminate H | ]).
    exact H.
Defined.

(** ** Rounding, and the first scenario of the specification *)

Lemma round_half_even_IZR n : round_half_even (IZR n) = n.
Proof.
  unfold round_half_even.
  assert (Hf : Int_part (IZR n) = n).
  { symmetry. apply Int_part_spec. lra. }
  rewrite Hf. destruct (Rlt_dec (IZR n - IZR n) (1 / 2)) as [_ | Hn].
  - reflexivity.
  - exfalso. apply Hn. lra.
Qed.

Lemma round4_exact n : round4 (IZR n / 10 ^ 4) = IZR n / 10 ^ 4.
Proof.
  unfold round4.
  replace (IZR n / 10 ^ 4 * 10 ^ 4) with (IZR n) by (field; lra).
  rewrite round_half_even_IZR. reflexivity.
Qed.

Example round4_5 : round4 5 = 5.
Proof.
  replace 5 with (IZR 50000 / 10 ^ 4) by lra. apply round4_exact.
Qed.

Example round4_0 : round4 0 = 0.
Proof.
  replace 0 with (IZR 0 / 10 ^ 4) by lra. apply round4_exact.
Qed.

(** One LINE from (0,0,0) to (3,4,0) on layer A. *)
Example line_scenario_layers :
  extract_layers doc_line = [ mkLayerInfo "A" 7 "White/Black" true 1 5 0 ].
Proof.
  unfold extract_layers, doc_line. cbn [modelspace layers map].
  unfold layer_row. cbn [name lcolor is_off negb].
  fold (count_of (scan_entities [ line_A ]) "A").
  fold (length_of (scan_entities [ line_A ]) "A").
  fold (area_of (scan_entities [ line_A ]) "A").
  rewrite scan_count, scan_length, scan_area.
  assert (Hon : entities_on "A" [ line_A ] = [ line_A ]) by reflexivity.
  rewrite Hon. cbn [map Rsum length]. unfold length_contrib, area_contrib, line_A.
  cbn [geom vx vy].
  rewrite (sqrt_of_square 5) by lra.
  replace (5 + 0) with 5 by lra. replace (0 + 0) with 0 by lra.
  rewrite round4_5, round4_0. reflexivity.
Qed.

Example line_scenario_box :
  calculate_bounding_box no_extents doc_line = mkBoundingBox 0 0 0 3 4 0 3 4 0.
Proof.
  unfold calculate_bounding_box, no_extents, fallback_box, box_of. simpl.
  unfold p0, p1, p2. simpl.
  rewrite !Rmin_left, !Rmax_right by lra.
  f_equal; lra.
Qed.

(** * Further properties of the engine *)

(** ** [get_color_name] *)

Lemma color_names_range c s :
  assoc_get c color_names = Some s -> (0 <= c <= 15)%Z.
Proof.
  unfold color_names, assoc_get.
  repeat match goal with
         | |- context [Z.eqb c ?k] =>
             destruct (Z.eqb_spec c k) as [-> | _]; [ intros _; lia | ]
         end.
  discriminate.
Qed.

Lemma to_int_proper z :
  Z.to_int z <> Decimal.Pos Decimal.Nil /\ Z.to_int z <> Decimal.Neg Decimal.Nil.
Proof.
  destruct z as [| p | p]; simpl; split; intros H; try discriminate H;
    injection H as H; exact (DecimalPos.Unsigned.to_uint_nonnil p H).
Qed.

Lemma decimal_inj a b :
  NilZero.string_of_int (Z.to_int a) = NilZero.string_of_int (Z.to_int b) -> a = b.
Proof.
  intros H. apply (f_equal NilZero.int_of_string) in H.
  destruct (to_int_proper a) as [Ha1 Ha2]. destruct (to_int_proper b) as [Hb1 Hb2].
  rewrite !NilZero.isi in H by assumption.
  injection H as H. apply DecimalZ.to_int_inj, H.
Qed.

Ltac enumerate_color c Hc :=
  assert (c = 0 \/ c = 1 \/ c = 2 \/ c = 3 \/ c = 4 \/ c = 5 \/ c = 6 \/ c = 7 \/
          c = 8 \/ c = 9 \/ c = 10 \/ c = 11 \/ c = 12 \/ c = 13 \/ c = 14 \/
          c = 15)%Z as Hc by lia.

(** Distinct colour indices get distinct names: the sixteen names of the
    table differ from one another and from every "Color n", and "Color n"
    spells n in decimal. *)
Theorem get_color_name_injective (a b : Z) :
  get_color_name a = get_color_name b -> a = b.
Proof.
  unfold get_color_name.
  destruct (assoc_get a color_names) as [sa |] eqn:Ea;
    destruct (assoc_get b color_names) as [sb |] eqn:Eb; intros H.
  - apply color_names_range in Ea as Ra. apply color_names_range in Eb as Rb.
    enumerate_color a Ha. enumerate_color b Hb. subst sb.
    repeat (destruct Ha as [-> | Ha]); try subst a;
      repeat (destruct Hb as [-> | Hb]); try subst b;
      first [ reflexivity | exfalso; simpl in Ea, Eb; congruence ].
  - apply color_names_range in Ea as Ra. enumerate_color a Ha. subst sa.
    exfalso.
    repeat (destruct Ha as [-> | Ha]); try subst a;
      simpl in Ea; discriminate Ea.
  - apply color_names_range in Eb as Rb. enumerate_color b Hb. subst sb.
    exfalso.
    repeat (destruct Hb as [-> | Hb]); try subst b;
      simpl in Eb; discriminate Eb.
  - simpl in H. injection H as H. apply decimal_inj, H.
Qed.

Lemma get_color_name_injective_witness : (256 = 256)%Z.
Proof. apply (get_color_name_injective 256 256). reflexivity. Defined.

(** ** More on [extract_layers] *)



(** A HATCH that reports its area adds that area to the closed area of its
    layer; one that cannot report it adds nothing.  Either way the hatch is
    counted and the line length of the layer stays as it was. *)
Theorem hatch_adds_reported_area
  (msp : list entity) (lay : string) (col : option Z) (total_area : option R) :
  let e := mkEntity lay col (HATCH total_area) in
  area_of (scan_entities (msp ++ [ e ])) lay =
    area_of (scan_entities msp) lay +
    match total_area with Some a => a | None => 0 end /\
  length_of (scan_entities (msp ++ [ e ])) lay = length_of (scan_entities msp) lay /\
  count_of (scan_entities (msp ++ [ e ])) lay =
    (count_of (scan_entities msp) lay + 1)%Z.
Proof.
  intros e. rewrite scan_snoc. split; [ | split ].
  - rewrite layer_step_area by apply same_keys_scan.
    subst e. unfold area_contrib. simpl. rewrite decide_True by reflexivity.
    destruct total_area; reflexivity.
  - rewrite layer_step_length by apply same_keys_scan.
    subst e. unfold length_contrib. simpl. rewrite decide_True by reflexivity. lra.
  - rewrite layer_step_count. subst e. simpl.
    rewrite decide_True by reflexivity. reflexivity.
Qed.

(** An entity of a kind other than LINE, LWPOLYLINE and HATCH is counted on
    its layer and changes neither line length nor closed area of any layer. *)
Theorem other_kinds_only_counted (msp : list entity) (e : entity) (n : string) :
  counted_only e = true ->
  length_of (scan_entities (msp ++ [ e ])) n = length_of (scan_entities msp) n /\
  area_of (scan_entities (msp ++ [ e ])) n = area_of (scan_entities msp) n /\
  count_of (scan_entities (msp ++ [ e ])) n =
    (count_of (scan_entities msp) n + (if decide (layer e = n) then 1 else 0))%Z.
Proof.
  intros Hk. rewrite scan_snoc. split; [ | split ].
  - rewrite layer_step_length by apply same_keys_scan.
    unfold counted_only in Hk. unfold length_contrib.
    destruct (geom e); try discriminate Hk; destruct (decide (layer e = n)); lra.
  - rewrite layer_step_area by apply same_keys_scan.
    unfold counted_only in Hk. unfold area_contrib.
    destruct (geom e); try discriminate Hk; destruct (decide (layer e = n)); lra.
  - apply layer_step_count.
Qed.

Lemma other_kinds_only_counted_witness :
  length_of (scan_entities ([ line_A ] ++ [ circle_bad ])) "A" =
    length_of (scan_entities [ line_A ]) "A" /\
  area_of (scan_entities ([ line_A ] ++ [ circle_bad ])) "A" =
    area_of (scan_entities [ line_A ]) "A" /\
  count_of (scan_entities ([ line_A ] ++ [ circle_bad ])) "A" =
    (count_of (scan_entities [ line_A ]) "A" +
     (if decide (layer circle_bad = "A") then 1 else 0))%Z.
Proof.
  apply (other_kinds_only_counted [ line_A ] circle_bad "A"). reflexivity.
Defined.

(** An entity leaves count, line length and closed area of every layer other
    than its own untouched. *)
Theorem other_layers_untouched (msp : list entity) (e : entity) (n : string) :
  layer e <> n ->
  count_of (scan_entities (msp ++ [ e ])) n = count_of (scan_entities msp) n /\
  length_of (scan_entities (msp ++ [ e ])) n = length_of (scan_entities msp) n /\
  area_of (scan_entities (msp ++ [ e ])) n = area_of (scan_entities msp) n.
Proof.
  intros Hne. rewrite scan_snoc. split; [ | split ].
  - rewrite layer_step_count, decide_False by exact Hne. lia.
  - rewrite layer_step_length by apply same_keys_scan.
    rewrite decide_False by exact Hne. lra.
  - rewrite layer_step_area by apply same_keys_scan.
    rewrite decide_False by exact Hne. lra.
Qed.

Lemma other_layers_untouched_witness :
  count_of (scan_entities ([ line_A ] ++ [ dim_ok ])) "A" =
    count_of (scan_entities [ line_A ]) "A" /\
  length_of (scan_entities ([ line_A ] ++ [ dim_ok ])) "A" =
    length_of (scan_entities [ line_A ]) "A" /\
  area_of (scan_entities ([ line_A ] ++ [ dim_ok ])) "A" =
    area_of (scan_entities [ line_A ]) "A".
Proof.
  apply (other_layers_untouched [ line_A ] dim_ok "A"). simpl. discriminate.
Defined.

(** *** Counts against the entity total *)

Lemma Zsum_indicator (names : list string) (e : entity) :
  Zsum (map (fun n => if on_layer n e then 1%Z else 0%Z) names) =
  Z.of_nat (count_occ string_dec names (layer e)).
Proof.
  induction names as [| n names IH]; [ reflexivity | ].
  cbn [map Zsum count_occ]. rewrite IH, on_layer_decide.
  destruct (decide (layer e = n)) as [-> | Hne].
  - destruct (string_dec n n) as [_ | Hn]; [ lia | congruence ].
  - destruct (string_dec n (layer e)) as [Heq | _]; [ congruence | lia ].
Qed.

Lemma Zsum_counts (names : list string) (msp : list entity) :
  Zsum (map (fun n => Z.of_nat (length (entities_on n msp))) names) =
  Zsum (map (fun e => Z.of_nat (count_occ string_dec names (layer e))) msp).
Proof.
  induction msp as [| e msp IH].
  - simpl. induction names as [| n names IHn]; [ reflexivity | ].
    cbn [map Zsum]. rewrite IHn. reflexivity.
  - cbn [map Zsum]. rewrite <- IH, <- Zsum_indicator. clear IH.
    induction names as [| n names IHn]; [ reflexivity | ].
    cbn [map Zsum]. rewrite IHn. unfold entities_on. simpl List.filter.
    destruct (on_layer n e); simpl length; lia.
Qed.

Lemma row_counts doc :
  map entity_count (extract_layers doc) =
  map (fun n => Z.of_nat (length (entities_on n (modelspace doc))))
      (map name (layers doc)).
Proof.
  unfold extract_layers. rewrite !map_map. apply map_ext. intros l. simpl.
  apply scan_count.
Qed.

Lemma count_occ_NoDup_le (names : list string) (n : string) :
  List.NoDup names -> (count_occ string_dec names n <= 1)%nat.
Proof. intros Hnd. apply (proj1 (List.NoDup_count_occ string_dec names) Hnd). Qed.

(** When the layer table lists no name twice, the entity counts of the rows
    add up to at most the entity total of the measurements, and to exactly
    that total when every entity sits on a layer of the table. *)
Theorem counts_add_up (ext : list entity -> extents_result) (doc : document) :
  List.NoDup (map name (layers doc)) ->
  (Zsum (map entity_count (extract_layers doc)) <=
   total_entities (extract_measurements ext doc))%Z /\
  ((forall e, In e (modelspace doc) -> In (layer e) (map name (layers doc))) ->
   Zsum (map entity_count (extract_layers doc)) =
   total_entities (extract_measurements ext doc)).
Proof.
  intros Hnd. rewrite row_counts, Zsum_counts.
  unfold extract_measurements. simpl total_entities.
  generalize (modelspace doc) as msp. intros msp. split.
  - induction msp as [| e msp IH]; [ simpl; lia | ].
    cbn [map Zsum length].
    pose proof (count_occ_NoDup_le _ (layer e) Hnd). lia.
  - induction msp as [| e msp IH]; intros Hall; [ reflexivity | ].
    cbn [map Zsum length].
    rewrite IH by (intros e' He'; apply Hall; right; exact He').
    rewrite (count_occ_NoDup_In _ (layer e) Hnd) by (apply Hall; left; reflexivity).
    lia.
Qed.

Lemma counts_add_up_witness :
  (Zsum (map entity_count (extract_layers doc_mixed)) <=
   total_entities (extract_measurements no_extents doc_mixed))%Z /\
  Zsum (map entity_count (extract_layers doc_mixed)) =
  total_entities (extract_measurements no_extents doc_mixed).
Proof.
  assert (Hnd : List.NoDup (map name (layers doc_mixed))).
  { simpl. constructor.
    - simpl. intros [H | []]. discriminate H.
    - constructor; [ intros [] | constructor ]. }
  destruct (counts_add_up no_extents doc_mixed Hnd) as [Hle Heq].
  split; [ exact Hle | apply Heq ].
  simpl. intros e [<- | [<- | [<- | [<- | []]]]]; simpl; auto.
Defined.

(** *** Signs and rounding *)

Lemma Rsum_nonneg l : (forall x, In x l -> 0 <= x) -> 0 <= Rsum l.
Proof.
  induction l as [| x l IH]; intros H; simpl; [ lra | ].
  pose proof (H x (or_introl eq_refl)).
  assert (0 <= Rsum l) by (apply IH; intros y Hy; apply H; right; exact Hy).
  lra.
Qed.

Lemma round_half_even_nonneg x : 0 <= x -> (0 <= round_half_even x)%Z.
Proof.
  intros Hx. unfold round_half_even. destruct (base_Int_part x) as [Hlo Hhi].
  set (f := Int_part x) in *.
  assert (Hf : (0 <= f)%Z).
  { assert (H : (-1 < f)%Z) by (apply lt_IZR; lra). lia. }
  destruct (Rlt_dec (x - IZR f) (1 / 2)); [ exact Hf | ].
  destruct (Rlt_dec (1 / 2) (x - IZR f)); [ lia | ].
  destruct (Z.even f); lia.
Qed.

Lemma round4_nonneg x : 0 <= x -> 0 <= round4 x.
Proof.
  intros Hx. unfold round4.
  assert (H : (0 <= round_half_even (x * 10 ^ 4))%Z)
    by (apply round_half_even_nonneg; nra).
  apply IZR_le in H. apply Rmult_le_pos; [ exact H | ].
  apply Rlt_le, Rinv_0_lt_compat. lra.
Qed.

Lemma dist_nonneg a b : 0 <= dist a b.
Proof. apply sqrt_pos. Qed.

Lemma edge_sum_nonneg f pts : (forall a b, 0 <= f a b) -> 0 <= edge_sum f pts.
Proof.
  intros Hf. unfold edge_sum. apply Rsum_nonneg.
  intros x Hx. apply in_map_iff in Hx. destruct Hx as (i & <- & _). apply Hf.
Qed.

Lemma length_contrib_nonneg e : 0 <= length_contrib e.
Proof.
  unfold length_contrib. destruct (geom e); try lra.
  - apply sqrt_pos.
  - apply edge_sum_nonneg, dist_nonneg.
Qed.

Lemma area_contrib_nonneg e :
  (forall a, geom e = HATCH (Some a) -> 0 <= a) -> 0 <= area_contrib e.
Proof.
  intros Hh. unfold area_contrib.
  destruct (geom e) as [| pts [|] | [a|] | | | | | |]; try lra.
  - apply shoelace_area_nonneg.
  - apply Hh. reflexivity.
Qed.

(** No row reports a negative line length; and when the hatches of the
    document report non-negative areas, no row reports a negative closed
    area. *)
Theorem rows_are_nonnegative (doc : document) (row : LayerInfo) :
  In row (extract_layers doc) ->
  0 <= line_length row /\
  (hatch_areas_nonneg (modelspace doc) -> 0 <= closed_area row) /\
  (0 <= entity_count row)%Z.
Proof.
  intros H. destruct (row_totals doc row H) as (Hc & Hl & Ha).
  split; [ | split ].
  - rewrite Hl. apply round4_nonneg, Rsum_nonneg.
    intros x Hx. apply in_map_iff in Hx. destruct Hx as (e & <- & _).
    apply length_contrib_nonneg.
  - intros Hh. rewrite Ha. apply round4_nonneg, Rsum_nonneg.
    intros x Hx. apply in_map_iff in Hx. destruct Hx as (e & <- & He).
    apply area_contrib_nonneg. intros a Ha'.
    apply List.filter_In in He. destruct He as [He _]. apply (Hh e a He Ha').
  - rewrite Hc. lia.
Qed.

Lemma rows_are_nonnegative_witness :
  0 <= line_length (mkLayerInfo "A" 7 "White/Black" true 1 5 0) /\
  0 <= closed_area (mkLayerInfo "A" 7 "White/Black" true 1 5 0).
Proof.
  destruct (rows_are_nonnegative doc_line
              (mkLayerInfo "A" 7 "White/Black" true 1 5 0)) as (Hl & Ha & _).
  - rewrite line_scenario_layers. left. reflexivity.
  - split; [ exact Hl | apply Ha ].
    intros e a [<- | []] Hg. discriminate Hg.
Defined.

(** ** More on [calculate_bounding_box] *)

Lemma fold_Rmin_cases l a : fold_left Rmin l a = a \/ In (fold_left Rmin l a) l.
Proof.
  revert a. induction l as [| y l IH]; intros a; simpl; [ left; reflexivity | ].
  destruct (IH (Rmin a y)) as [H | H]; [ | right; right; exact H ].
  rewrite H. unfold Rmin. destruct (Rle_dec a y); [ left | right; left ]; reflexivity.
Qed.

Lemma fold_Rmax_cases l a : fold_left Rmax l a = a \/ In (fold_left Rmax l a) l.
Proof.
  revert a. induction l as [| y l IH]; intros a; simpl; [ left; reflexivity | ].
  destruct (IH (Rmax a y)) as [H | H]; [ | right; right; exact H ].
  rewrite H. unfold Rmax. destruct (Rle_dec a y); [ right; left | left ]; reflexivity.
Qed.

Lemma py_min_In l : l <> [] -> In (py_min l) l.
Proof.
  destruct l as [| x l]; [ congruence | intros _ ]. simpl.
  destruct (fold_Rmin_cases l x) as [H | H]; [ left; symmetry; exact H | right; exact H ].
Qed.

Lemma py_max_In l : l <> [] -> In (py_max l) l.
Proof.
  destruct l as [| x l]; [ congruence | intros _ ]. simpl.
  destruct (fold_Rmax_cases l x) as [H | H]; [ left; symmetry; exact H | right; exact H ].
Qed.

Lemma scanned_points_flat msp : scanned_points msp = flat_map fallback_points msp.
Proof. apply all_points_flat. Qed.

Lemma fallback_points_z e p : In p (fallback_points e) -> p2 p = 0.
Proof.
  unfold fallback_points.
  destruct (geom e) as [s t | pts cl | | | | | | | tag [pts |]]; simpl; try tauto.
  - intros [<- | [<- | []]]; reflexivity.
  - intros H. apply in_map_iff in H. destruct H as (v & <- & _). reflexivity.
  - intros H. apply in_map_iff in H. destruct H as (v & <- & _). reflexivity.
Qed.

Lemma scanned_points_z msp p : In p (scanned_points msp) -> p2 p = 0.
Proof.
  rewrite scanned_points_flat. intros H. apply in_flat_map in H.
  destruct H as (e & _ & He). apply (fallback_points_z e p He).
Qed.

Lemma fallback_box_eq msp :
  fallback_box msp =
  match scanned_points msp with
  | [] => zero_box
  | _ :: _ =>
      box_of (mkVec3 (py_min (map p0 (scanned_points msp)))
                     (py_min (map p1 (scanned_points msp)))
                     (py_min (map p2 (scanned_points msp))))
             (mkVec3 (py_max (map p0 (scanned_points msp)))
                     (py_max (map p1 (scanned_points msp)))
                     (py_max (map p2 (scanned_points msp))))
  end.
Proof.
  unfold fallback_box, scanned_points.
  destruct (fold_left fallback_step msp []); reflexivity.
Qed.

(** Whatever the extents query does, the box that comes back has
    [width = max_x - min_x], [height = max_y - min_y] and
    [depth = max_z - min_z]. *)
Theorem box_sides_are_differences
  (ext : list entity -> extents_result) (doc : document) :
  let b := calculate_bounding_box ext doc in
  width b = max_x b - min_x b /\
  height b = max_y b - min_y b /\
  depth b = max_z b - min_z b.
Proof.
  unfold calculate_bounding_box.
  destruct (ext (modelspace doc)); rewrite ?fallback_box_eq;
    try destruct (scanned_points (modelspace doc)); simpl; lra.
Qed.

(** When the extents query gives no box, the box comes from the scan: it is
    flat ([min_z], [max_z] and [depth] are zero), its minima do not exceed
    its maxima, and its width and height are not negative. *)
Theorem fallback_box_is_flat
  (ext : list entity -> extents_result) (doc : document) :
  no_box (ext (modelspace doc)) ->
  let b := calculate_bounding_box ext doc in
  min_z b = 0 /\ max_z b = 0 /\ depth b = 0 /\
  min_x b <= max_x b /\ min_y b <= max_y b /\
  0 <= width b /\ 0 <= height b.
Proof.
  intros Hn b.
  assert (Hb : b = fallback_box (modelspace doc)).
  { subst b. unfold calculate_bounding_box.
    destruct (ext (modelspace doc)); [ reflexivity | reflexivity | destruct Hn ]. }
  rewrite Hb, fallback_box_eq. clear Hb b Hn.
  destruct (scanned_points (modelspace doc)) as [| q all] eqn:E.
  - simpl. lra.
  - rewrite <- E. assert (Hne : scanned_points (modelspace doc) <> [])
      by (rewrite E; discriminate).
    clear E. set (pts := scanned_points (modelspace doc)) in *.
    assert (Hz : forall f, In (f (map p2 pts)) (map p2 pts) -> f (map p2 pts) = 0).
    { intros f Hf. apply in_map_iff in Hf. destruct Hf as (p & Hp & Hin).
      rewrite <- Hp. apply (scanned_points_z _ p Hin). }
    assert (Hm : forall (g : point3 -> R), map g pts <> []).
    { intros g Hg. apply map_eq_nil in Hg. exact (Hne Hg). }
    pose proof (Hz py_min (py_min_In _ (Hm p2))) as Hz1.
    pose proof (Hz py_max (py_max_In _ (Hm p2))) as Hz2.
    pose proof (py_max_ge _ _ (py_min_In _ (Hm p0))) as Hx.
    pose proof (py_max_ge _ _ (py_min_In _ (Hm p1))) as Hy.
    simpl. rewrite Hz1, Hz2. lra.
Qed.

Lemma fallback_box_is_flat_witness :
  let b := calculate_bounding_box no_extents doc_line in
  min_z b = 0 /\ max_z b = 0 /\ depth b = 0 /\
  min_x b <= max_x b /\ min_y b <= max_y b /\
  0 <= width b /\ 0 <= height b.
Proof.
  apply (fallback_box_is_flat no_extents doc_line). simpl. exact I.
Defined.

(** The box of the scan is tight: when the extents query gives no box and
    the scan collects some point, each of [min_x], [max_x], [min_y] and
    [max_y] is a coordinate of a collected point. *)
Theorem fallback_box_is_tight
  (ext : list entity -> extents_result) (doc : document) :
  no_box (ext (modelspace doc)) ->
  scanned_points (modelspace doc) <> [] ->
  let b := calculate_bounding_box ext doc in
  let pts := scanned_points (modelspace doc) in
  In (min_x b) (map p0 pts) /\ In (max_x b) (map p0 pts) /\
  In (min_y b) (map p1 pts) /\ In (max_y b) (map p1 pts).
Proof.
  intros Hn Hne b pts.
  assert (Hb : b = fallback_box (modelspace doc)).
  { subst b. unfold calculate_bounding_box.
    destruct (ext (modelspace doc)); [ reflexivity | reflexivity | destruct Hn ]. }
  rewrite Hb, fallback_box_eq. fold pts.
  assert (Hne' : pts <> []) by exact Hne. clearbody pts. clear Hb b Hne.
  assert (Hm : forall (g : point3 -> R), map g pts <> []).
  { intros g Hg. apply map_eq_nil in Hg. exact (Hne' Hg). }
  destruct pts as [| q all]; [ congruence | ].
  set (pts := q :: all) in *. cbn [min_x max_x min_y max_y box_of vx vy].
  repeat split;
    first [ apply py_min_In, Hm | apply py_max_In, Hm ].
Qed.

Lemma fallback_box_is_tight_witness :
  let b := calculate_bounding_box no_extents doc_line in
  let pts := scanned_points (modelspace doc_line) in
  In (min_x b) (map p0 pts) /\ In (max_x b) (map p0 pts) /\
  In (min_y b) (map p1 pts) /\ In (max_y b) (map p1 pts).
Proof.
  apply (fallback_box_is_tight no_extents doc_line).
  - simpl. exact I.
  - simpl. discriminate.
Defined.

(** The scan sees LINE endpoints and [get_points()] vertices only: when the
    extents query gives no box and the document holds no LINE, no
    LWPOLYLINE and no other entity with [get_points], the box is the
    all-zero box, whatever circles, arcs, texts, hatches or dimensions the
    document holds. *)
Theorem pointless_document_zero_box
  (ext : list entity -> extents_result) (doc : document) :
  no_box (ext (modelspace doc)) ->
  (forall e, In e (modelspace doc) -> fallback_points e = []) ->
  calculate_bounding_box ext doc = mkBoundingBox 0 0 0 0 0 0 0 0 0.
Proof.
  intros Hn Hall. unfold calculate_bounding_box.
  assert (Hs : scanned_points (modelspace doc) = []).
  { rewrite scanned_points_flat. revert Hall.
    generalize (modelspace doc) as msp.
    induction msp as [| e msp IH]; intros Hall; [ reflexivity | ].
    simpl. rewrite (Hall e (or_introl eq_refl)). simpl.
    apply IH. intros e' He'. apply Hall. right. exact He'. }
  destruct (ext (modelspace doc)); try destruct Hn;
    rewrite fallback_box_eq, Hs; reflexivity.
Qed.

Lemma pointless_document_zero_box_witness :
  calculate_bounding_box no_extents (mkDoc [ circle_bad; dim_ok ] []) =
  mkBoundingBox 0 0 0 0 0 0 0 0 0.
Proof.
  apply (pointless_document_zero_box no_extents (mkDoc [ circle_bad; dim_ok ] [])).
  - simpl. exact I.
  - simpl. intros e [<- | [<- | []]]; reflexivity.
Defined.

(** ** More on [extract_measurements] and [extract_preview_geometry] *)

Lemma length_flat_map_filter {A B} (f : A -> list B) (keep : A -> bool) (l : list A) :
  (forall x, length (f x) = if keep x then 1%nat else 0%nat) ->
  length (flat_map f l) = length (List.filter keep l).
Proof.
  intros H. induction l as [| x l IH]; [ reflexivity | ].
  simpl. rewrite length_app, IH, H. destruct (keep x); reflexivity.
Qed.

Lemma filter_length_le {A} (keep : A -> bool) (l : list A) :
  (length (List.filter keep l) <= length l)%nat.
Proof.
  induction l as [| x l IH]; [ reflexivity | ].
  simpl. destruct (keep x); simpl; lia.
Qed.

Lemma filter_length_mono {A} (f g : A -> bool) (l : list A) :
  (forall x, f x = true -> g x = true) ->
  (length (List.filter f l) <= length (List.filter g l))%nat.
Proof.
  intros H. induction l as [| x l IH]; [ reflexivity | ].
  simpl. destruct (f x) eqn:Ef.
  - rewrite (H x Ef). simpl. lia.
  - destruct (g x); simpl; lia.
Qed.

Lemma dim_data_is_dimension e r : dim_data e = Some r -> is_dimension e = true.
Proof.
  unfold dim_data, is_dimension. destruct (geom e); try discriminate. reflexivity.
Qed.

Lemma dimension_of_length e :
  length (dimension_of e) = if dimension_reads e then 1%nat else 0%nat.
Proof.
  unfold dimension_reads. destruct (dim_data e) as [r |] eqn:E.
  - rewrite (dimension_of_reads e r E). reflexivity.
  - unfold dimension_of, dimension_step. rewrite E.
    destruct (is_dimension e); reflexivity.
Qed.

(** There is one dimension record for each DIMENSION entity whose required
    reads succeed, in the order of the entities; so there are at most as
    many records as DIMENSION entities, and at most [total_entities]. *)
Theorem dimension_records_counted
  (ext : list entity -> extents_result) (doc : document) :
  let m := extract_measurements ext doc in
  length (dimensions m) =
    length (List.filter dimension_reads (modelspace doc)) /\
  (length (dimensions m) <= length (List.filter is_dimension (modelspace doc)))%nat /\
  (Z.of_nat (length (dimensions m)) <= total_entities m)%Z.
Proof.
  intros m.
  assert (H : length (dimensions m) =
              length (List.filter dimension_reads (modelspace doc))).
  { subst m. unfold extract_measurements. simpl dimensions.
    rewrite scan_dimensions_flat.
    apply length_flat_map_filter, dimension_of_length. }
  split; [ exact H | split ].
  - rewrite H. apply filter_length_mono. intros e He.
    unfold dimension_reads in He. destruct (dim_data e) as [r |] eqn:E.
    + apply (dim_data_is_dimension e r E).
    + discriminate He.
  - rewrite H. subst m. unfold extract_measurements. simpl total_entities.
    pose proof (filter_length_le dimension_reads (modelspace doc)). lia.
Qed.

Lemma dim_data_keys e r :
  dim_data e = Some r ->
  map fst r = dimension_keys e /\
  (exists rest, r = ("type", VStr "DIMENSION") :: ("layer", VStr (layer e)) :: rest).
Proof.
  unfold dim_data, dimension_keys, dxftype.
  destruct (geom e) as [| | | tx m st dp tm | | | | |]; try discriminate.
  destruct tx, m, st; simpl; try discriminate.
  intros H. injection H as <-.
  destruct dp, tm; simpl; split; try reflexivity; eexists; reflexivity.
Qed.

(** Every dimension record comes from a DIMENSION entity of the document.
    It starts with the type, always DIMENSION, and the layer of the entity,
    goes on with text, actual_measurement and dimstyle, and ends with
    defpoint and text_midpoint exactly when the entity has them. *)
Theorem dimension_record_shape
  (ext : list entity -> extents_result) (doc : document) (r : dict) :
  In r (dimensions (extract_measurements ext doc)) ->
  exists e, In e (modelspace doc) /\ is_dimension e = true /\
            map fst r = dimension_keys e /\
            exists rest,
              r = ("type", VStr "DIMENSION") :: ("layer", VStr (layer e)) :: rest.
Proof.
  unfold extract_measurements. simpl dimensions. rewrite scan_dimensions_flat.
  intros H. apply in_flat_map in H. destruct H as (e & He & Hr).
  exists e. split; [ exact He | ].
  destruct (dim_data e) as [r' |] eqn:E.
  - rewrite (dimension_of_reads e r' E) in Hr. destruct Hr as [<- | []].
    split; [ apply (dim_data_is_dimension e r' E) | apply (dim_data_keys e r' E) ].
  - exfalso. unfold dimension_of, dimension_step in Hr. rewrite E in Hr.
    destruct (is_dimension e); destruct Hr.
Qed.

Lemma dimension_record_shape_witness :
  exists e, In e (modelspace doc_mixed) /\ is_dimension e = true /\
            map fst [ ("type", VStr "DIMENSION"); ("layer", VStr "DIMS");
                      ("text", VStr "5.00"); ("actual_measurement", VNum 5);
                      ("dimstyle", VStr "STANDARD");
                      ("defpoint", VVec (mkVec3 0 0 0)) ] = dimension_keys e /\
            exists rest,
              [ ("type", VStr "DIMENSION"); ("layer", VStr "DIMS");
                ("text", VStr "5.00"); ("actual_measurement", VNum 5);
                ("dimstyle", VStr "STANDARD");
                ("defpoint", VVec (mkVec3 0 0 0)) ] =
              ("type", VStr "DIMENSION") :: ("layer", VStr (layer e)) :: rest.
Proof.
  apply (dimension_record_shape no_extents doc_mixed).
  rewrite mixed_dimensions. left. reflexivity.
Defined.

Lemma projection_of_length e :
  length (projection_of e) = if projects e then 1%nat else 0%nat.
Proof.
  unfold projection_of, preview_step, projects.
  destruct (preview_data (geom e)) as [[d |] |]; reflexivity.
Qed.

(** The preview holds one record for each entity that projects, so at most
    as many records as the document has entities; every LINE and every
    LWPOLYLINE projects. *)
Theorem preview_records_counted
  (ext : list entity -> extents_result) (doc : document) :
  let out := snd (extract_preview_geometry ext doc) in
  length out = length (List.filter projects (modelspace doc)) /\
  (length out <= length (modelspace doc))%nat /\
  (forall e, In e (modelspace doc) ->
     (exists s t, geom e = LINE s t) \/ (exists pts cl, geom e = LWPOLYLINE pts cl) ->
     exists g, In g out /\ ge_type g = dxftype e /\ ge_layer g = layer e).
Proof.
  intros out.
  assert (Hflat : out = flat_map projection_of (modelspace doc))
    by apply scan_preview_flat.
  assert (H : length out = length (List.filter projects (modelspace doc))).
  { rewrite Hflat. apply length_flat_map_filter, projection_of_length. }
  split; [ exact H | split ].
  - rewrite H. apply filter_length_le.
  - intros e He Hk.
    assert (Hp : exists data,
               projection_of e =
               [ mkGeometryEntity (dxftype e) (layer e) (default 7%Z (color e)) data ]).
    { unfold projection_of, preview_step.
      destruct Hk as [(s & t & ->) | (pts & cl & ->)]; simpl; eexists; reflexivity. }
    destruct Hp as (data & Hp). eexists. split.
    + rewrite Hflat. apply in_flat_map. exists e. split; [ exact He | ].
      rewrite Hp. left. reflexivity.
    + split; reflexivity.
Qed.

(** * The upload store and the endpoints *)

(** ** Strings *)

#[local] Arguments String.append : simpl nomatch.

Lemma str_app_assoc (a b c : string) : ((a ++ b) ++ c = a ++ (b ++ c))%string.
Proof. induction a as [| x a IH]; simpl; [ | rewrite IH ]; reflexivity. Qed.

Lemma str_length_app (a b : string) :
  String.length (a ++ b) = (String.length a + String.length b)%nat.
Proof. induction a as [| x a IH]; simpl; [ | rewrite IH ]; reflexivity. Qed.

Lemma str_drop_app (a b : string) : str_drop (String.length a) (a ++ b) = b.
Proof. induction a as [| x a IH]; simpl; [ destruct b | ]; auto. Qed.

Lemma str_get_app (a : string) (x : ascii) (b : string) :
  String.get (String.length a) (a ++ String x b) = Some x.
Proof. induction a as [| y a IH]; simpl; auto. Qed.

Lemma occurs_app c (a b : string) :
  occurs c (a ++ b) = (occurs c a || occurs c b)%bool.
Proof.
  induction a as [| x a IH]; simpl; [ reflexivity | ].
  rewrite IH. apply Bool.orb_assoc.
Qed.

Lemma rfind_from_app (a b : string) c i found :
  rfind_from (a ++ b) c i found =
  rfind_from b c (i + Z.of_nat (String.length a)) (rfind_from a c i found).
Proof.
  revert i found. induction a as [| x a IH]; intros i found; simpl String.length.
  - simpl. f_equal. lia.
  - cbn [String.append rfind_from]. rewrite IH. f_equal. lia.
Qed.

Lemma rfind_from_absent (s : string) c i found :
  occurs c s = false -> rfind_from s c i found = found.
Proof.
  revert i found. induction s as [| x s IH]; intros i found H; simpl in *.
  - reflexivity.
  - apply Bool.orb_false_iff in H. destruct H as [Hx Hs].
    rewrite Hx. apply IH, Hs.
Qed.

Lemma skip_leading_dots_ext p d f n :
  snd (skip_leading_dots p d f n) = "" \/
  snd (skip_leading_dots p d f n) = str_drop d p.
Proof.
  revert f. induction n as [| n IH]; intros f; simpl.
  - left. reflexivity.
  - destruct (String.get f p) as [a |]; [ destruct (Ascii.eqb a ".") | ];
      simpl; auto.
Qed.

(** The extension is empty or starts at the last dot. *)
Lemma splitext_ext_cases p :
  snd (splitext p) = "" \/
  snd (splitext p) = str_drop (Z.to_nat (rfind p ".")) p.
Proof.
  unfold splitext. destruct (rfind p "/" <? rfind p ".")%Z.
  - apply skip_leading_dots_ext.
  - left. reflexivity.
Qed.

(** The last dot of [x ++ "." ++ t], when [t] has no dot. *)
Lemma rfind_dot_suffix (x t : string) :
  occurs "." t = false ->
  rfind (x ++ String "." t) "." = Z.of_nat (String.length x).
Proof.
  intros Ht. unfold rfind. rewrite rfind_from_app.
  cbn [rfind_from]. rewrite (rfind_from_absent t "." _ _ Ht). simpl. lia.
Qed.

Lemma splitext_suffix_cases (x t : string) :
  occurs "." t = false ->
  snd (splitext (x ++ String "." t)) = "" \/
  snd (splitext (x ++ String "." t)) = String "." t.
Proof.
  intros Ht. destruct (splitext_ext_cases (x ++ String "." t)) as [H | H];
    [ left; exact H | right ].
  rewrite H, (rfind_dot_suffix x t Ht), Nat2Z.id. apply str_drop_app.
Qed.

(** The extension of a named file in a directory: the name does not start
    with a dot and has no slash, the suffix has neither dot nor slash. *)
Lemma splitext_named (pre : string) (a : ascii) (r t : string) :
  Ascii.eqb a "." = false ->
  occurs "/" (String a r) = false ->
  occurs "." t = false -> occurs "/" t = false ->
  snd (splitext (pre ++ String "/" (String a r ++ String "." t))) = String "." t.
Proof.
  intros Ha Hid Ht Hts.
  set (id := String a r) in *.
  set (p := (pre ++ String "/" (id ++ String "." t))%string).
  assert (Hsep : rfind p "/" = Z.of_nat (String.length pre)).
  { unfold rfind, p. rewrite rfind_from_app. cbn [rfind_from].
    rewrite rfind_from_absent; [ simpl; lia | ].
    rewrite occurs_app, Hid. simpl. exact Hts. }
  assert (Hp : p = ((pre ++ String "/" id) ++ String "." t)%string).
  { unfold p. rewrite str_app_assoc. reflexivity. }
  assert (Hlen : String.length (pre ++ String "/" id) =
                 (String.length pre + 1 + String.length id)%nat).
  { rewrite str_length_app. simpl. lia. }
  assert (Hdot : rfind p "." =
                 Z.of_nat (String.length pre + 1 + String.length id)).
  { rewrite Hp, (rfind_dot_suffix _ t Ht), Hlen. reflexivity. }
  unfold splitext. rewrite Hsep, Hdot.
  assert (Hlt : (Z.of_nat (String.length pre) <?
                 Z.of_nat (String.length pre + 1 + String.length id))%Z = true)
    by (apply Z.ltb_lt; lia).
  rewrite Hlt.
  replace (Z.to_nat (Z.of_nat (String.length pre) + 1))
    with (String.length (pre ++ "/")) by (rewrite str_length_app; simpl; lia).
  replace (Z.to_nat (Z.of_nat (String.length pre + 1 + String.length id) -
                     (Z.of_nat (String.length pre) + 1)))
    with (S (String.length r)) by (subst id; simpl; lia).
  cbn [skip_leading_dots].
  assert (Hget : String.get (String.length (pre ++ "/")) p = Some a).
  { unfold p, id.
    replace (pre ++ String "/" (String a r ++ String "." t))%string
      with ((pre ++ "/") ++ String a (r ++ String "." t))%string
      by (rewrite str_app_assoc; reflexivity).
    apply str_get_app. }
  rewrite Hget, Ha. cbn [snd]. rewrite Nat2Z.id, <- Hlen, Hp.
  apply str_drop_app.
Qed.

(** ** The query endpoints *)

Lemma processing_cases {A} parse str st file_path (respond : document -> A) :
  (exists doc, parse_dxf_file parse st file_path = Some doc /\
               processing parse str st file_path respond = Returns (respond doc)) \/
  (parse_dxf_file parse st file_path = None /\
   processing parse str st file_path respond =
   Raises (HTTPException 500
             ("Error processing file: " ++
              str (HTTPException 400 "Failed to parse file"))%string)).
Proof.
  unfold processing. destruct (parse_dxf_file parse st file_path) as [doc |].
  - left. exists doc. auto.
  - right. auto.
Qed.

Lemma processing_raises {A} parse str st file_path (respond : document -> A) e :
  processing parse str st file_path respond = Raises e ->
  exists d, e = HTTPException 500 d.
Proof.
  destruct (processing_cases parse str st file_path respond)
    as [(doc & _ & ->) | (_ & ->)]; intros H.
  - discriminate H.
  - injection H as <-. eauto.
Qed.

(** A query endpoint that raises, raises an [HTTPException] with status 404
    or 500.  The 400 that [parse_dxf_file] and the endpoint raise inside
    their [try] blocks never leaves the endpoint. *)
Theorem queries_raise_404_or_500
  (parse : string -> option document) (str : exn -> string)
  (ext : list entity -> extents_result) (st : server) (file_id : string) (e : exn) :
  get_layers parse str st file_id = Raises e \/
  get_measurements parse str ext st file_id = Raises e \/
  get_preview parse str ext st file_id = Raises e ->
  exists d, e = HTTPException 404 d \/ e = HTTPException 500 d.
Proof.
  unfold get_layers, get_measurements, get_preview.
  destruct (file_storage st !! file_id) as [info |].
  - destruct (path_exists st (stored_path file_id info)); simpl.
    + intros [H | [H | H]]; apply processing_raises in H;
        destruct H as (d & ->); eauto.
    + intros [H | [H | H]]; injection H as <-; eauto.
  - intros [H | [H | H]]; injection H as <-; eauto.
Qed.

Lemma queries_raise_404_or_500_witness :
  exists d, HTTPException 404 "File not found" = HTTPException 404 d \/
            HTTPException 404 "File not found" = HTTPException 500 d.
Proof.
  apply (queries_raise_404_or_500 any_parse plain_str no_extents
           empty_server sample_id).
  left. reflexivity.
Defined.

(** An id that is not in [file_storage] gets 404 "File not found" from the
    three query endpoints and from [delete_file], which leaves the state as
    it is; an id whose file is no longer on disk gets 404 "File data not
    found on disk" from the query endpoints. *)
Theorem missing_entries_get_404
  (parse : string -> option document) (str : exn -> string)
  (ext : list entity -> extents_result) (st : server) (file_id : string) :
  (file_storage st !! file_id = None ->
     get_layers parse str st file_id = Raises (HTTPException 404 "File not found") /\
     get_measurements parse str ext st file_id =
       Raises (HTTPException 404 "File not found") /\
     get_preview parse str ext st file_id =
       Raises (HTTPException 404 "File not found") /\
     delete_file st file_id = (Raises (HTTPException 404 "File not found"), st)) /\
  (forall info, file_storage st !! file_id = Some info ->
     disk st !! stored_path file_id info = None ->
     get_layers parse str st file_id =
       Raises (HTTPException 404 "File data not found on disk") /\
     get_measurements parse str ext st file_id =
       Raises (HTTPException 404 "File data not found on disk") /\
     get_preview parse str ext st file_id =
       Raises (HTTPException 404 "File data not found on disk")).
Proof.
  unfold get_layers, get_measurements, get_preview, delete_file. split.
  - intros ->. auto.
  - intros info -> Hd. unfold path_exists. rewrite Hd. simpl. auto.
Qed.

Lemma missing_entries_get_404_witness :
  get_layers any_parse plain_str empty_server sample_id =
    Raises (HTTPException 404 "File not found") /\
  delete_file empty_server sample_id =
    (Raises (HTTPException 404 "File not found"), empty_server).
Proof.
  destruct (proj1 (missing_entries_get_404 any_parse plain_str no_extents
                     empty_server sample_id)) as (H1 & _ & _ & H4).
  - reflexivity.
  - split; assumption.
Defined.

(** ** Uploads *)

Lemma path_join_suffix (file_id s : string) :
  exists x, path_join UPLOAD_DIR (file_id ++ s) = (x ++ s)%string.
Proof.
  unfold path_join. destruct (starts_with "/" (file_id ++ s)).
  - exists file_id. reflexivity.
  - exists ("/tmp/uploads/" ++ file_id)%string. reflexivity.
Qed.

Lemma dxf_path_not_dwg (file_id : string) :
  String.eqb (lower (snd (splitext (path_join UPLOAD_DIR (file_id ++ ".dxf")))))
             ".dwg" = false.
Proof.
  destruct (path_join_suffix file_id ".dxf") as [x ->].
  destruct (splitext_suffix_cases x "dxf" eq_refl) as [-> | ->]; reflexivity.
Qed.

Lemma plain_id_inv (file_id : string) :
  plain_id file_id = true ->
  exists a r, file_id = String a r /\ Ascii.eqb a "." = false /\
              occurs "/" (String a r) = false.
Proof.
  unfold plain_id. destruct file_id as [| a r]; simpl; [ discriminate | ].
  intros H. apply Bool.andb_true_iff in H. destruct H as [Ha Ho].
  exists a, r. repeat split.
  - destruct (Ascii.eqb a "."); [ discriminate Ha | reflexivity ].
  - destruct (Ascii.eqb a "/" || occurs "/" r)%bool; [ discriminate Ho | reflexivity ].
Qed.

Lemma dwg_path_is_dwg (file_id : string) :
  plain_id file_id = true ->
  lower (snd (splitext (path_join UPLOAD_DIR (file_id ++ ".dwg")))) = ".dwg".
Proof.
  intros Hp. destruct (plain_id_inv file_id Hp) as (a & r & -> & Ha & Ho).
  assert (Hs : Ascii.eqb a "/" = false).
  { simpl in Ho. apply Bool.orb_false_iff in Ho. apply Ho. }
  unfold path_join. simpl starts_with. rewrite Hs.
  change (if (String.eqb UPLOAD_DIR "" || ends_with "/" UPLOAD_DIR)%bool
          then (UPLOAD_DIR ++ (String a r ++ ".dwg"))%string
          else (UPLOAD_DIR ++ "/" ++ (String a r ++ ".dwg"))%string)
    with ("/tmp/uploads" ++ String "/" (String a r ++ String "." "dwg"))%string.
  rewrite (splitext_named "/tmp/uploads" a r "dwg" Ha Ho eq_refl eq_refl).
  reflexivity.
Qed.

Lemma stored_path_written file_id name size now (t : string) :
  t = "dxf" \/ t = "dwg" ->
  stored_path file_id (mkFileInfo file_id name size now (upper t)) =
  path_join UPLOAD_DIR (file_id ++ String "." t).
Proof. intros [-> | ->]; reflexivity. Qed.

Lemma upload_accepts str st name contents file_id now (t : string) :
  t = "dxf" \/ t = "dwg" ->
  lower (snd (splitext name)) = String "." t ->
  upload_file str st (Some name) contents file_id now None =
  (Returns (mkUploadResponse true file_id name
              ("File uploaded successfully. ID: " ++ file_id)%string),
   mkServer (<[file_id := mkFileInfo file_id name
                            (Z.of_nat (String.length contents)) now (upper t)]>
               (file_storage st))
            (<[path_join UPLOAD_DIR (file_id ++ String "." t) := contents]>
               (disk st))).
Proof.
  intros Ht He. destruct name as [| c name]; [ discriminate He | ].
  unfold upload_file. rewrite He.
  destruct Ht as [-> | ->]; reflexivity.
Qed.

(** The round trip of a DXF upload: when the upload of a file named
    [*.dxf], in any letter case, is written without fault and the reader
    accepts its contents, the three query endpoints, asked for the id of the
    upload, return what the engine extracts from the document read. *)
Theorem dxf_upload_round_trip
  (parse : string -> option document) (str : exn -> string)
  (ext : list entity -> extents_result)
  (st : server) (name contents file_id : string) (now : Z) (doc : document) :
  lower (snd (splitext name)) = ".dxf" ->
  parse contents = Some doc ->
  let '(r, st') := upload_file str st (Some name) contents file_id now None in
  r = Returns (mkUploadResponse true file_id name
                 ("File uploaded successfully. ID: " ++ file_id)%string) /\
  get_layers parse str st' file_id =
    Returns (mkLayerResponse file_id name (extract_layers doc)) /\
  get_measurements parse str ext st' file_id =
    Returns (mkMeasurementResponse file_id name (extract_measurements ext doc)) /\
  get_preview parse str ext st' file_id =
    Returns (mkPreviewResponse file_id name
               (fst (extract_preview_geometry ext doc))
               (snd (extract_preview_geometry ext doc))).
Proof.
  intros He Hp.
  rewrite (upload_accepts str st name contents file_id now "dxf") by auto.
  split; [ reflexivity | ].
  set (path := path_join UPLOAD_DIR (file_id ++ ".dxf")).
  set (info := mkFileInfo file_id name (Z.of_nat (String.length contents)) now
                          (upper "dxf")).
  set (st' := mkServer (<[file_id := info]> (file_storage st))
                       (<[path := contents]> (disk st))).
  assert (Hsp : stored_path file_id info = path)
    by (apply stored_path_written; auto).
  assert (Hparse : parse_dxf_file parse st' path = Some doc).
  { unfold parse_dxf_file, parse_dxf_try. unfold path at 1.
    rewrite dxf_path_not_dwg. simpl disk. fold path.
    rewrite lookup_insert_eq, Hp. reflexivity. }
  unfold get_layers, get_measurements, get_preview.
  simpl file_storage. rewrite lookup_insert_eq, Hsp.
  unfold path_exists. simpl disk. rewrite lookup_insert_eq. simpl negb.
  unfold processing. rewrite Hparse. simpl.
  repeat split.
Qed.

Lemma dxf_upload_round_trip_witness :
  get_layers any_parse plain_str
    (snd (upload_file plain_str empty_server (Some "Plan.DXF") "0 SECTION"
            sample_id 0 None)) sample_id =
  Returns (mkLayerResponse sample_id "Plan.DXF" (extract_layers doc_line)).
Proof.
  pose proof (dxf_upload_round_trip any_parse plain_str no_extents empty_server
                "Plan.DXF" "0 SECTION" sample_id 0 doc_line eq_refl eq_refl) as H.
  destruct (upload_file plain_str empty_server (Some "Plan.DXF") "0 SECTION"
              sample_id 0 None) as [r st'].
  exact (proj1 (proj2 H)).
Defined.

(** A DWG upload is accepted and stored, but it can never be queried: for an
    id as [uuid4] makes them, the three query endpoints answer 500 whatever
    the file holds, since [parse_dxf_file] gives up on the [.dwg] path
    before it reads the file. *)
Theorem dwg_upload_cannot_be_queried
  (parse : string -> option document) (str : exn -> string)
  (ext : list entity -> extents_result)
  (st : server) (name contents file_id : string) (now : Z) :
  plain_id file_id = true ->
  lower (snd (splitext name)) = ".dwg" ->
  let '(r, st') := upload_file str st (Some name) contents file_id now None in
  let wrapped :=
    HTTPException 500 ("Error processing file: " ++
                       str (HTTPException 400 "Failed to parse file"))%string in
  r = Returns (mkUploadResponse true file_id name
                 ("File uploaded successfully. ID: " ++ file_id)%string) /\
  get_layers parse str st' file_id = Raises wrapped /\
  get_measurements parse str ext st' file_id = Raises wrapped /\
  get_preview parse str ext st' file_id = Raises wrapped.
Proof.
  intros Hid He.
  rewrite (upload_accepts str st name contents file_id now "dwg") by auto.
  split; [ reflexivity | ].
  set (path := path_join UPLOAD_DIR (file_id ++ ".dwg")).
  set (info := mkFileInfo file_id name (Z.of_nat (String.length contents)) now
                          (upper "dwg")).
  set (st' := mkServer (<[file_id := info]> (file_storage st))
                       (<[path := contents]> (disk st))).
  assert (Hsp : stored_path file_id info = path)
    by (apply stored_path_written; auto).
  assert (Hparse : parse_dxf_file parse st' path = None).
  { unfold parse_dxf_file, parse_dxf_try. unfold path.
    rewrite (dwg_path_is_dwg file_id Hid). reflexivity. }
  unfold get_layers, get_measurements, get_preview.
  simpl file_storage. rewrite lookup_insert_eq, Hsp.
  unfold path_exists. simpl disk. rewrite lookup_insert_eq. simpl negb.
  unfold processing. rewrite Hparse. simpl.
  repeat split.
Qed.

Lemma dwg_upload_cannot_be_queried_witness :
  get_layers any_parse plain_str
    (snd (upload_file plain_str empty_server (Some "site.dwg") "AC1032"
            sample_id 0 None)) sample_id =
  Raises (HTTPException 500
            ("Error processing file: " ++
             plain_str (HTTPException 400 "Failed to parse file"))%string).
Proof.
  pose proof (dwg_upload_cannot_be_queried any_parse plain_str no_extents
                empty_server "site.dwg" "AC1032" sample_id 0 eq_refl eq_refl) as H.
  destruct (upload_file plain_str empty_server (Some "site.dwg") "AC1032"
              sample_id 0 None) as [r st'].
  exact (proj1 (proj2 H)).
Defined.

(** An upload without a file name, with an empty one, or with a name whose
    extension is neither [.dxf] nor [.dwg] in any letter case, is refused
    with status 400 and leaves storage and disk as they were.  A name made
    of an extension alone, like [.dxf], has no extension and is refused. *)
Theorem upload_refusals_change_nothing
  (str : exn -> string) (st : server) (upload_name : option string)
  (contents file_id : string) (now : Z) (fault : option exn) :
  (forall name, upload_name = Some name ->
     lower (snd (splitext name)) <> ".dxf" /\
     lower (snd (splitext name)) <> ".dwg") ->
  exists d, upload_file str st upload_name contents file_id now fault =
            (Raises (HTTPException 400 d), st).
Proof.
  intros H. unfold upload_file. destruct upload_name as [[| c name] |].
  - eauto.
  - destruct (H (String c name) eq_refl) as [H1 H2].
    apply String.eqb_neq in H1, H2. rewrite H1, H2. simpl. eauto.
  - eauto.
Qed.

Lemma upload_refusals_change_nothing_witness :
  exists d, upload_file plain_str empty_server (Some ".dxf") "0 SECTION"
              sample_id 0 None =
            (Raises (HTTPException 400 d), empty_server).
Proof.
  apply (upload_refusals_change_nothing plain_str empty_server (Some ".dxf")).
  intros name H. injection H as <-. split; discriminate.
Defined.

(** When writing the upload raises, the endpoint answers 500, no entry is
    added to [file_storage], and no file is left at the path of the upload;
    every other file stays. *)
Theorem failed_upload_leaves_no_file
  (str : exn -> string) (st : server) (name contents file_id : string)
  (now : Z) (e : exn) (t : string) :
  t = "dxf" \/ t = "dwg" ->
  lower (snd (splitext name)) = String "." t ->
  let '(r, st') := upload_file str st (Some name) contents file_id now (Some e) in
  let path := path_join UPLOAD_DIR (file_id ++ String "." t) in
  r = Raises (HTTPException 500 ("Upload failed: " ++ str e)%string) /\
  file_storage st' = file_storage st /\
  disk st' !! path = None /\
  (forall other, other <> path -> disk st' !! other = disk st !! other).
Proof.
  intros Ht He. destruct name as [| c name]; [ discriminate He | ].
  unfold upload_file. rewrite He.
  assert (Hok : negb (String.eqb (String "." t) ".dxf" ||
                      String.eqb (String "." t) ".dwg") = false)
    by (destruct Ht as [-> | ->]; reflexivity).
  rewrite Hok. simpl. repeat split.
  - apply lookup_delete_eq.
  - intros other Hne. apply lookup_delete_ne. congruence.
Qed.

Lemma failed_upload_leaves_no_file_witness :
  disk (snd (upload_file plain_str empty_server (Some "a.dxf") "0 SECTION"
               sample_id 0 (Some (Exception "No space left on device"))))
    !! path_join UPLOAD_DIR (sample_id ++ ".dxf") = None.
Proof.
  pose proof (failed_upload_leaves_no_file plain_str empty_server "a.dxf"
                "0 SECTION" sample_id 0 (Exception "No space left on device")
                "dxf" (or_introl eq_refl) eq_refl) as H.
  destruct (upload_file plain_str empty_server (Some "a.dxf") "0 SECTION"
              sample_id 0 (Some (Exception "No space left on device"))) as [r st'].
  exact (proj1 (proj2 (proj2 H))).
Defined.

(** ** Deletion *)

(** Deleting a stored file answers with success, removes the entry and the
    file, and touches nothing else; afterwards the query endpoints answer
    404 for that id. *)
Theorem delete_removes_entry_and_file
  (parse : string -> option document) (str : exn -> string)
  (ext : list entity -> extents_result)
  (st : server) (file_id : string) (info : FileInfo) :
  file_storage st !! file_id = Some info ->
  let '(r, st') := delete_file st file_id in
  r = Returns [ ("success", VBool true);
                ("message", VStr "File deleted successfully") ] /\
  file_storage st' !! file_id = None /\
  disk st' !! stored_path file_id info = None /\
  (forall other, other <> file_id ->
     file_storage st' !! other = file_storage st !! other) /\
  (forall path, path <> stored_path file_id info ->
     disk st' !! path = disk st !! path) /\
  get_layers parse str st' file_id = Raises (HTTPException 404 "File not found") /\
  get_measurements parse str ext st' file_id =
    Raises (HTTPException 404 "File not found") /\
  get_preview parse str ext st' file_id =
    Raises (HTTPException 404 "File not found").
Proof.
  intros Hs. unfold delete_file. rewrite Hs.
  assert (Hgone : file_storage
                    (mkServer (delete file_id (file_storage st))
                       (if path_exists st (stored_path file_id info)
                        then delete (stored_path file_id info) (disk st)
                        else disk st)) !! file_id = None)
    by apply lookup_delete_eq.
  split; [ reflexivity | split; [ exact Hgone | ] ].
  split; [ | split; [ | split ] ].
  - simpl. unfold path_exists.
    destruct (disk st !! stored_path file_id info) eqn:E.
    + apply lookup_delete_eq.
    + exact E.
  - intros other Hne. simpl. apply lookup_delete_ne. congruence.
  - intros path Hne. simpl.
    destruct (path_exists st (stored_path file_id info)); [ | reflexivity ].
    apply lookup_delete_ne. congruence.
  - unfold get_layers, get_measurements, get_preview. rewrite Hgone. auto.
Qed.

Lemma delete_removes_entry_and_file_witness :
  file_storage
    (snd (delete_file
            (mkServer {[ sample_id := mkFileInfo sample_id "a.dxf" 9 0 "DXF" ]} ∅)
            sample_id)) !! sample_id = None.
Proof.
  pose proof (delete_removes_entry_and_file any_parse plain_str no_extents
                (mkServer {[ sample_id := mkFileInfo sample_id "a.dxf" 9 0 "DXF" ]} ∅)
                sample_id (mkFileInfo sample_id "a.dxf" 9 0 "DXF")
                (lookup_singleton_eq _ _)) as H.
  destruct (delete_file
              (mkServer {[ sample_id := mkFileInfo sample_id "a.dxf" 9 0 "DXF" ]} ∅)
              sample_id) as [r st'].
  exact (proj1 (proj2 H)).
Defined.

(** Uploading and then deleting gives back the state before the upload,
    when the id was not in use and no file stood at the path of the upload. *)
Theorem upload_then_delete_restores
  (str : exn -> string) (st : server) (name contents file_id : string)
  (now : Z) (t : string) :
  t = "dxf" \/ t = "dwg" ->
  lower (snd (splitext name)) = String "." t ->
  file_storage st !! file_id = None ->
  disk st !! path_join UPLOAD_DIR (file_id ++ String "." t) = None ->
  snd (delete_file
         (snd (upload_file str st (Some name) contents file_id now None))
         file_id) = st.
Proof.
  intros Ht He Hs Hd.
  rewrite (upload_accepts str st name contents file_id now t Ht He).
  cbn [snd]. unfold delete_file. cbn [file_storage]. rewrite lookup_insert_eq.
  rewrite (stored_path_written file_id name _ now t Ht).
  unfold path_exists. cbn [disk snd]. rewrite lookup_insert_eq.
  rewrite !delete_insert_id by assumption.
  destruct st. reflexivity.
Qed.

Lemma upload_then_delete_restores_witness :
  snd (delete_file
         (snd (upload_file plain_str empty_server (Some "a.dxf") "0 SECTION"
                 sample_id 0 None))
         sample_id) = empty_server.
Proof.
  apply (upload_then_delete_restores plain_str empty_server "a.dxf" "0 SECTION"
           sample_id 0 "dxf").
  - left. reflexivity.
  - reflexivity.
  - reflexivity.
  - reflexivity.
Defined.
